(** * omi_async_http_client: response filtering and error classification

    A shallow embedding of the two backends of the asynchronous HTTP client,
    [omi_async_http_client/aiohttp_backend.py] (class [AioHttpClientBackend])
    and [test/mock/mock_test_client_backend.py] (class
    [MockTestClientBackend]), followed by the properties of the specification
    that concern them.

    Python values decoded from JSON are an inductive type, a [dict] with
    string keys is a [gmap string _], a raised exception is the [Raise]
    branch of a result type, and the calls on the transport are recorded in
    a trace, so that "the body is never decoded" and "nothing is sent" are
    statements about that trace. *)

From Stdlib Require Import ZArith List Floats Ascii String.
From stdpp Require Import base option strings gmap.
Import ListNotations.

Local Open Scope string_scope.
Local Open Scope Z_scope.
Local Open Scope list_scope.

(** ** Python values *)

(** What [json.loads] (and so [response.json()]) can produce, which is also
    what [json.dumps] accepts. *)
#[warnings="-register-all"]
Inductive pyval : Type :=
| PNone
| PBool (b : bool)
| PInt (z : Z)
| PFloat (f : float)
| PStr (s : string)
| PList (l : list pyval)
| PDict (d : gmap string pyval).

(** ** Exceptions *)

Module HTTPException.
(** Modelled from the spec: [_exceptions.HTTPException] is not among the
    sources.  Section 3 gives it the fields [status_code], [detail] and the
    optional [trace_code]; a field holds what the raise site passes for the
    keyword of that name, and [None] when the raise site leaves it out. *)
Record t : Type := make {
  status_code : Z;
  trace_code : option pyval;
  detail : option pyval
}.
End HTTPException.

(** The exceptions the two modules raise or let through.  The text carried
    by a transport error is what [str(err)] returns for it.
    [ServerTimeoutError] is a subclass of [ClientError] in aiohttp;
    [ClientError] below stands for the instances of [ClientError] that are
    not timeouts.  [TimeoutError] is [asyncio.TimeoutError], which aiohttp
    raises when the total of a [ClientTimeout] expires and which is no
    [ClientError]; [ValueError] is what [aiohttp.BasicAuth] raises on
    arguments it rejects; [ValidationError] is what the constructor of a
    [ClientBackendResponse] raises on fields it rejects; [OtherError] is any
    other exception outside the hierarchy of [ClientError] (a decoding error
    of the JSON codec, for instance). *)
Inductive exn : Type :=
| HTTPException_ (e : HTTPException.t)
| NotImplementedError
| TypeError
| AttributeError
| ServerTimeoutError (text : string)
| ClientError (text : string)
| OtherError (text : string)
| TimeoutError (text : string)
| ValueError
| ValidationError.

Inductive result (A : Type) : Type :=
| Return (a : A)
| Raise (e : exn).
Arguments Return {A} a.
Arguments Raise {A} e.

(** [result] is the exception monad: [x ← m; k] runs [k] unless [m] raised. *)
#[global] Instance result_ret : MRet result := λ A a, Return a.
#[global] Instance result_bind : MBind result := λ A B k m,
  match m with
  | Return a => k a
  | Raise e => Raise e
  end.

(** ** Operations of the Python language used by the code *)

(** [x in [c1, ..., cn]] on integers: equality with one of the elements. *)
Definition py_in (x : Z) (l : list Z) : bool := existsb (Z.eqb x) l.

(** [obj.get(key, default)]: the [dict] method; the other JSON values have
    no attribute [get]. *)
Definition py_get (obj : pyval) (key : string) (default_ : pyval) : result pyval :=
  match obj with
  | PDict d => Return (default default_ (d !! key))
  | _ => Raise AttributeError
  end.

(** [v > 0]: numbers ([bool] is a subclass of [int]) are compared with the
    integer zero, a NaN being greater than nothing; [str], [list], [dict]
    and [None] do not support [>] with an [int]. *)
Definition py_gt_0 (v : pyval) : result bool :=
  match v with
  | PInt z => Return (0 <? z)
  | PBool b => Return (0 <? Z.b2z b)
  | PFloat f => Return (PrimFloat.ltb PrimFloat.zero f)
  | PNone | PStr _ | PList _ | PDict _ => Raise TypeError
  end.

(** The values whose class implements an ordering against [int]. *)
Definition is_number (v : pyval) : bool :=
  match v with
  | PInt _ | PBool _ | PFloat _ => true
  | _ => false
  end.

(** ** The status-code service *)

Module status_codes.
(** Modelled from the spec: [_status_code.status_codes] is not among the
    sources.  Section 6 lists the named constants with their values, and
    sections 4.2 and 7 read a server error as a 5xx status and a client error
    as a 4xx status.  The table of reason phrases is not given anywhere: it
    is a parameter [get_reason_phrase] of the backends below. *)
Definition OK : Z := 200.
Definition CREATED : Z := 201.
Definition ACCEPTED : Z := 202.
Definition BAD_REQUEST : Z := 400.
Definition UNAUTHORIZED : Z := 401.
Definition FORBIDDEN : Z := 403.
Definition NOT_FOUND : Z := 404.
Definition REQUEST_TIMEOUT : Z := 408.
Definition CONFLICT : Z := 409.
Definition UNPROCESSABLE_ENTITY : Z := 422.
Definition SERVICE_UNAVAILABLE : Z := 503.

Definition is_client_error (value : Z) : bool := (400 <=? value) && (value <=? 499).
Definition is_server_error (value : Z) : bool := (500 <=? value) && (value <=? 599).
End status_codes.

(** ** Values exchanged with the caller and with the transport *)

Module ClientBackendResponse.
(** Modelled from the spec: [async_http_client.ClientBackendResponse] is not
    among the sources.  Section 3 gives it two fields: [status_code], an
    integer that is a valid HTTP status, and [response], a mapping. *)
Record t : Type := make {
  status_code : Z;
  response : gmap string pyval
}.

(** Modelled from the spec: the constructor call
    [ClientBackendResponse(status_code=..., response=...)], which is not
    among the sources.  It builds the value when the fields are as section 3
    requires and raises otherwise.  Which integers it takes for a valid HTTP
    status is said nowhere: that check is the parameter [valid_status]. *)
Definition new (valid_status : Z → bool) (status_code : Z) (response : pyval)
    : result t :=
  if valid_status status_code then
    match response with
    | PDict d => Return {| status_code := status_code; response := d |}
    | _ => Raise ValidationError
    end
  else Raise ValidationError.
End ClientBackendResponse.

(** What reaches the transport as [auth]: Python's [None], or an
    [aiohttp.BasicAuth(login, password)]. *)
Inductive credentials : Type :=
| NoCredentials
| BasicAuth (login password : pyval).

(** [":" in obj]: a substring test on a [str], a test of the elements of a
    [list] and of the keys of a [dict]; the other values are not iterable. *)
Definition py_colon_in (obj : pyval) : result bool :=
  match obj with
  | PStr s => Return (existsb (Ascii.eqb ":"%char) (String.list_ascii_of_string s))
  | PList l =>
      Return (existsb (λ x, match x with PStr s => String.eqb s ":" | _ => false end) l)
  | PDict d => Return (bool_decide (is_Some (d !! ":")))
  | PNone | PBool _ | PInt _ | PFloat _ => Raise TypeError
  end.

(** The call [BasicAuth(login, password)] of aiohttp, which checks its
    arguments before it builds the object: [None] is allowed neither as
    login nor as password, and the login may hold no colon. *)
Definition BasicAuth_new (login password : pyval) : result credentials :=
  match login with
  | PNone => Raise ValueError
  | _ =>
      match password with
      | PNone => Raise ValueError
      | _ =>
          colon ← py_colon_in login;
          if colon : bool then Raise ValueError
          else Return (BasicAuth login password)
      end
  end.

(** The [auth] argument of a verb, [Union[BasicAuth, Dict]]: the two cases
    that [isinstance(auth, Dict)] tells apart. *)
Inductive auth_arg : Type :=
| AuthDict (d : gmap string pyval)
| AuthObject (c : credentials).

(** [aiohttp.ClientTimeout(total=...)]. *)
Record ClientTimeout : Type := { total : Z }.

(** ** Effects: a trace of the calls on the transport *)

(** [Request c] is one call of the transport with the arguments [c];
    [Json] is one call of the [json()] method of a response. *)
Inductive event (C : Type) : Type :=
| Request (c : C)
| Json.
Arguments Request {C} c.
Arguments Json {C}.

(** A computation that may raise and that appends to the trace. *)
Definition io (C A : Type) : Type := list (event C) → result A * list (event C).

#[global] Instance io_ret {C} : MRet (io C) := λ A a tr, (Return a, tr).
#[global] Instance io_bind {C} : MBind (io C) := λ A B k m tr,
  match m tr with
  | (Return a, tr') => k a tr'
  | (Raise e, tr') => (Raise e, tr')
  end.

Definition raise {C A} (e : exn) : io C A := λ tr, (Raise e, tr).

(** A computation without effect on the transport, run inside [io]. *)
Definition lift {C A} (r : result A) : io C A := λ tr, (r, tr).

(** [try: body except ...: handler]: the handler sees the exception the body
    raised and the trace the body left. *)
Definition try_except {C A} (body : io C A) (handler : exn → io C A) : io C A := λ tr,
  match body tr with
  | (Return a, tr') => (Return a, tr')
  | (Raise e, tr') => handler e tr'
  end.

(** One call of the transport: the environment [env] answers with a response
    or raises. *)
Definition perform {C R} (env : C → result R) (c : C) : io C R := λ tr,
  (env c, tr ++ [Request c]).

(** One call of [response.json()], whose outcome the response carries. *)
Definition decode {C} (outcome : result pyval) : io C pyval := λ tr,
  (outcome, tr ++ [Json]).

(** The result and the trace of a computation started on the empty trace. *)
Definition outcome {C A} (m : io C A) : result A := fst (m []).
Definition calls {C A} (m : io C A) : list (event C) := snd (m []).

(** ** The production backend: [aiohttp_backend.py] *)

Module aiohttp.
(** The keyword arguments of [aiohttp.request(...)]. *)
Record request_args : Type := {
  method : string;
  url : string;
  data : string;
  headers : pyval;
  auth : credentials;
  timeout : ClientTimeout
}.

(** The response the context manager yields: its [status] attribute, and
    what awaiting its [json()] gives. *)
Record ClientResponse : Type := {
  status : Z;
  json : result pyval
}.
End aiohttp.

Module AioHttpClientBackend.
Section Backend.

(** The codec and the table of reason phrases are collaborators of the
    backend, [valid_status] is the check of the status by the constructor of
    a [ClientBackendResponse], and [request] is the network as this call
    finds it. *)
Variable json_dumps : pyval → string.
Variable get_reason_phrase : Z → string.
Variable valid_status : Z → bool.
Variable request : aiohttp.request_args → result aiohttp.ClientResponse.

Local Abbreviation M := (io aiohttp.request_args).

Definition filter_received_response (status : Z) (response_dict : pyval) : result unit :=
  if py_in status [status_codes.BAD_REQUEST;
                   status_codes.UNAUTHORIZED;
                   status_codes.FORBIDDEN;
                   status_codes.NOT_FOUND;
                   status_codes.CONFLICT]
  then
    trace_code ← py_get response_dict "code" (PInt 0);
    positive ← py_gt_0 trace_code;
    if positive : bool then
      Raise (HTTPException_
               {| HTTPException.status_code := status;
                  HTTPException.trace_code := Some trace_code;
                  HTTPException.detail := Some (PStr (get_reason_phrase status)) |})
    else
      Raise (HTTPException_
               {| HTTPException.status_code := status;
                  HTTPException.trace_code := None;
                  HTTPException.detail := Some (PStr (get_reason_phrase status)) |})
  else if status =? status_codes.UNPROCESSABLE_ENTITY then
    Raise (HTTPException_
             {| HTTPException.status_code := status;
                HTTPException.trace_code := None;
                HTTPException.detail := Some response_dict |})
  else if py_in status [status_codes.OK; status_codes.CREATED; status_codes.ACCEPTED] then
    Return ()
  else
    Return ().

(** [url] is given as its text, so that [str(url)] is [url]. *)
Definition request_http (method url : string) (data headers : pyval)
    (auth : credentials) (timeout : ClientTimeout) : M ClientBackendResponse.t :=
  try_except
    (response ← perform request
       {| aiohttp.method := method;
          aiohttp.url := url;
          aiohttp.data := json_dumps data;
          aiohttp.headers := headers;
          aiohttp.auth := auth;
          aiohttp.timeout := timeout |};
     let status := aiohttp.status response in
     _ ← (if status_codes.is_server_error status then
            raise (HTTPException_
                     {| HTTPException.status_code := status;
                        HTTPException.trace_code := None;
                        HTTPException.detail := None |})
          else if status_codes.is_client_error status then
            mret ()
          else
            mret ());
     response_dict ← decode (aiohttp.json response);
     _ ← lift (filter_received_response status response_dict);
     lift (ClientBackendResponse.new valid_status status response_dict))
    (λ err,
       match err with
       | ServerTimeoutError text =>
           raise (HTTPException_
                    {| HTTPException.status_code := status_codes.REQUEST_TIMEOUT;
                       HTTPException.trace_code := None;
                       HTTPException.detail := Some (PStr text) |})
       | ClientError text =>
           raise (HTTPException_
                    {| HTTPException.status_code := status_codes.SERVICE_UNAVAILABLE;
                       HTTPException.trace_code := None;
                       HTTPException.detail := Some (PStr text) |})
       | _ => raise err
       end).

Definition send (url : string) (data header : pyval) (auth : auth_arg) (timeout : Z)
    : M ClientBackendResponse.t :=
  raise NotImplementedError.

Definition head (url : string) (header : pyval) (auth : auth_arg) (timeout : Z)
    : M ClientBackendResponse.t :=
  auth_method ←
    match auth with
    | AuthDict d =>
        let login := default (PStr "") (d !! "username") in
        let password := default (PStr "") (d !! "password") in
        lift (BasicAuth_new login password)
    | AuthObject c => mret c
    end;
  request_http "head" url PNone header auth_method {| total := timeout |}.

Definition get (url : string) (data header : pyval) (auth : auth_arg) (timeout : Z)
    : M ClientBackendResponse.t :=
  auth_method ←
    match auth with
    | AuthDict d =>
        let login := default (PStr "") (d !! "username") in
        let password := default (PStr "") (d !! "password") in
        lift (BasicAuth_new login password)
    | AuthObject c => mret c
    end;
  request_http "get" url PNone header auth_method {| total := timeout |}.

Definition put (url : string) (data header : pyval) (auth : auth_arg) (timeout : Z)
    : M ClientBackendResponse.t :=
  auth_method ←
    match auth with
    | AuthDict d =>
        let login := default (PStr "") (d !! "username") in
        let password := default (PStr "") (d !! "password") in
        lift (BasicAuth_new login password)
    | AuthObject c => mret c
    end;
  request_http "put" url data header auth_method {| total := timeout |}.

Definition post (url : string) (data header : pyval) (auth : auth_arg) (timeout : Z)
    : M ClientBackendResponse.t :=
  auth_method ←
    match auth with
    | AuthDict d =>
        let login := default (PStr "") (d !! "username") in
        let password := default (PStr "") (d !! "password") in
        lift (BasicAuth_new login password)
    | AuthObject c => mret c
    end;
  request_http "post" url data header auth_method {| total := timeout |}.

Definition delete (url : string) (data header : pyval) (auth : auth_arg) (timeout : Z)
    : M ClientBackendResponse.t :=
  auth_method ←
    match auth with
    | AuthDict d =>
        let login := default (PStr "") (d !! "username") in
        let password := default (PStr "") (d !! "password") in
        lift (BasicAuth_new login password)
    | AuthObject c => mret c
    end;
  request_http "delete" url data header auth_method {| total := timeout |}.

End Backend.
End AioHttpClientBackend.

(** ** The test backend: [mock_test_client_backend.py] *)

Module test_client.
(** One call [self.test_client.<verb>(url, ...)] with its keyword arguments;
    [data] is [None] where the call passes no [data] keyword. *)
Record call_args : Type := {
  verb : string;
  url : string;
  data : option string;
  headers : pyval;
  auth : credentials;
  timeout : Z
}.

(** The response of the test client: its [status_code] attribute, and what
    its [json()] gives. *)
Record Response : Type := {
  status_code : Z;
  json : result pyval
}.
End test_client.

Module MockTestClientBackend.
Section Backend.

Variable json_dumps : pyval → string.
Variable get_reason_phrase : Z → string.
Variable valid_status : Z → bool.
Variable test_client_call : test_client.call_args → result test_client.Response.

Local Abbreviation M := (io test_client.call_args).

Definition mock_filter_received_response (status : Z) (response_dict : pyval) : result unit :=
  if py_in status [status_codes.BAD_REQUEST;
                   status_codes.UNAUTHORIZED;
                   status_codes.FORBIDDEN;
                   status_codes.NOT_FOUND;
                   status_codes.CONFLICT]
  then
    trace_code ← py_get response_dict "code" (PInt 0);
    positive ← py_gt_0 trace_code;
    if positive : bool then
      Raise (HTTPException_
               {| HTTPException.status_code := status;
                  HTTPException.trace_code := Some trace_code;
                  HTTPException.detail := Some (PStr (get_reason_phrase status)) |})
    else
      Raise (HTTPException_
               {| HTTPException.status_code := status;
                  HTTPException.trace_code := None;
                  HTTPException.detail := Some (PStr (get_reason_phrase status)) |})
  else if status =? status_codes.UNPROCESSABLE_ENTITY then
    Raise (HTTPException_
             {| HTTPException.status_code := status;
                HTTPException.trace_code := None;
                HTTPException.detail := Some response_dict |})
  else if py_in status [status_codes.OK; status_codes.CREATED; status_codes.ACCEPTED] then
    Return ()
  else
    Return ().

Definition mock_prepare_response (response : test_client.Response)
    : M ClientBackendResponse.t :=
  let status := test_client.status_code response in
  _ ← (if status_codes.is_server_error status then
         raise (HTTPException_
                  {| HTTPException.status_code := status;
                     HTTPException.trace_code := None;
                     HTTPException.detail := None |})
       else if status_codes.is_client_error status then
         mret ()
       else
         mret ());
  response_dict ← decode (test_client.json response);
  _ ← lift (mock_filter_received_response status response_dict);
  lift (ClientBackendResponse.new valid_status status response_dict).

Definition send (url : string) (data header : pyval) (auth : auth_arg) (timeout : Z)
    : M ClientBackendResponse.t :=
  raise NotImplementedError.

(** The call runs on a worker thread and is awaited: to the caller it is one
    call of the test client, whose exception, if any, comes back through the
    future. *)
Definition head (url : string) (header : pyval) (auth : auth_arg) (timeout : Z)
    : M ClientBackendResponse.t :=
  response ← perform test_client_call
    {| test_client.verb := "head";
       test_client.url := url;
       test_client.data := None;
       test_client.headers := header;
       test_client.auth := NoCredentials;
       test_client.timeout := timeout |};
  mock_prepare_response response.

Definition get (url : string) (data header : pyval) (auth : auth_arg) (timeout : Z)
    : M ClientBackendResponse.t :=
  response ← perform test_client_call
    {| test_client.verb := "get";
       test_client.url := url;
       test_client.data := Some (json_dumps data);
       test_client.headers := header;
       test_client.auth := NoCredentials;
       test_client.timeout := timeout |};
  mock_prepare_response response.

Definition put (url : string) (data header : pyval) (auth : auth_arg) (timeout : Z)
    : M ClientBackendResponse.t :=
  response ← perform test_client_call
    {| test_client.verb := "put";
       test_client.url := url;
       test_client.data := Some (json_dumps data);
       test_client.headers := header;
       test_client.auth := NoCredentials;
       test_client.timeout := timeout |};
  mock_prepare_response response.

Definition post (url : string) (data header : pyval) (auth : auth_arg) (timeout : Z)
    : M ClientBackendResponse.t :=
  response ← perform test_client_call
    {| test_client.verb := "post";
       test_client.url := url;
       test_client.data := Some (json_dumps data);
       test_client.headers := header;
       test_client.auth := NoCredentials;
       test_client.timeout := timeout |};
  mock_prepare_response response.

Definition delete (url : string) (data header : pyval) (auth : auth_arg) (timeout : Z)
    : M ClientBackendResponse.t :=
  response ← perform test_client_call
    {| test_client.verb := "delete";
       test_client.url := url;
       test_client.data := Some (json_dumps data);
       test_client.headers := header;
       test_client.auth := NoCredentials;
       test_client.timeout := timeout |};
  mock_prepare_response response.

End Backend.
End MockTestClientBackend.

(** ** Reading a trace, and concrete collaborators *)

(** The arguments of the calls of the transport, in order. *)
Fixpoint requests {C} (tr : list (event C)) : list C :=
  match tr with
  | [] => []
  | Request c :: tr' => c :: requests tr'
  | Json :: tr' => requests tr'
  end.

(** How many times a body was decoded. *)
Fixpoint decodes {C} (tr : list (event C)) : nat :=
  match tr with
  | [] => O
  | Request _ :: tr' => decodes tr'
  | Json :: tr' => S (decodes tr')
  end.

(** A table of reason phrases for the statuses the filter classifies. *)
Definition reason_phrases (value : Z) : string :=
  if value =? 400 then "Bad Request"
  else if value =? 401 then "Unauthorized"
  else if value =? 403 then "Forbidden"
  else if value =? 404 then "Not Found"
  else if value =? 409 then "Conflict"
  else "".

(** The statuses of HTTP, for a constructor that checks the range. *)
Definition http_status (value : Z) : bool := (100 <=? value) && (value <=? 599).

(** A codec for the scalars of JSON that have a fixed spelling; the other
    values are not told apart by it. *)
Definition dumps_scalar (v : pyval) : string :=
  match v with
  | PNone => "null"
  | PBool true => "true"
  | PBool false => "false"
  | _ => "{}"
  end.

(** A server that answers every request with [status] and a body that
    decodes to [body]. *)
Definition server_replies (status : Z) (body : pyval)
    : aiohttp.request_args → result aiohttp.ClientResponse :=
  λ _, Return {| aiohttp.status := status; aiohttp.json := Return body |}.

(** A server that answers with [status] and a body that is not JSON. *)
Definition server_garbles (status : Z)
    : aiohttp.request_args → result aiohttp.ClientResponse :=
  λ _, Return {| aiohttp.status := status;
                 aiohttp.json := Raise (OtherError "Expecting value") |}.

(** A network on which every request fails with [err]. *)
Definition network_fails (err : exn)
    : aiohttp.request_args → result aiohttp.ClientResponse :=
  λ _, Raise err.


Definition app_garbles (status : Z)
    : test_client.call_args → result test_client.Response :=
  λ _, Return {| test_client.status_code := status;
                 test_client.json := Raise (OtherError "Expecting value") |}.

(** ** Properties of the response filter *)

Lemma py_in_classified (status : Z) :
  status ∈ [400; 401; 403; 404; 409] →
  py_in status [status_codes.BAD_REQUEST; status_codes.UNAUTHORIZED;
                status_codes.FORBIDDEN; status_codes.NOT_FOUND;
                status_codes.CONFLICT] = true.
Proof.
  intros H.
  repeat (apply elem_of_cons in H as [-> | H]; [reflexivity |]).
  by apply elem_of_nil in H.
Qed.

Lemma py_in_unclassified (status : Z) :
  status ∉ [400; 401; 403; 404; 409; 422] →
  py_in status [status_codes.BAD_REQUEST; status_codes.UNAUTHORIZED;
                status_codes.FORBIDDEN; status_codes.NOT_FOUND;
                status_codes.CONFLICT] = false
  ∧ (status =? status_codes.UNPROCESSABLE_ENTITY) = false.
Proof.
  intros H.
  repeat (apply not_elem_of_cons in H as [? H]).
  unfold py_in, existsb, status_codes.BAD_REQUEST, status_codes.UNAUTHORIZED,
    status_codes.FORBIDDEN, status_codes.NOT_FOUND, status_codes.CONFLICT,
    status_codes.UNPROCESSABLE_ENTITY.
  split; repeat (apply orb_false_intro); try reflexivity; by apply Z.eqb_neq.
Qed.

(** On a classified status the filter is the extraction of the code followed
    by the comparison. *)
Lemma filter_classified (phrase : Z → string) (status : Z) (body : pyval) :
  status ∈ [400; 401; 403; 404; 409] →
  AioHttpClientBackend.filter_received_response phrase status body
  = (trace_code ← py_get body "code" (PInt 0);
     positive ← py_gt_0 trace_code;
     Raise (HTTPException_
              {| HTTPException.status_code := status;
                 HTTPException.trace_code :=
                   if positive : bool then Some trace_code else None;
                 HTTPException.detail := Some (PStr (phrase status)) |})).
Proof.
  intros H. unfold AioHttpClientBackend.filter_received_response.
  rewrite py_in_classified by done.
  destruct (py_get body "code" (PInt 0)) as [trace_code |]; [| reflexivity].
  cbn. destruct (py_gt_0 trace_code) as [[] |]; reflexivity.
Qed.

(** C1, as stated, fails: on status 400 with the body [{"code": "E42"}] the
    filter raises no [HTTPException] at all (the comparison of the string
    with [0] raises [TypeError] first). *)
Lemma filter_string_code_no_http_exception :
  400 ∈ [400; 401; 403; 404; 409]
  ∧ ¬ (∃ e : HTTPException.t,
          AioHttpClientBackend.filter_received_response reason_phrases 400
            (PDict {[ "code" := PStr "E42" ]})
          = Raise (HTTPException_ e)).
Proof.
  split; [set_solver |].
  intros [e He]. vm_compute in He. discriminate He.
Qed.

(** C1, amended: for every status in {400, 401, 403, 404, 409} and every body
    mapping whose ["code"] value, when present, is a number, both copies of
    the filter raise one [HTTPException] whose [status_code] is the input
    status and whose [detail] is the reason phrase of that status; it carries
    [trace_code == B.get("code", 0)] when that value is greater than 0, and
    no [trace_code] when it is not, in particular when the key is absent or
    maps to 0. *)
Theorem filter_classified_numeric_code
    (phrase : Z → string) (status : Z) (B : gmap string pyval) :
  status ∈ [400; 401; 403; 404; 409] →
  (∀ v, B !! "code" = Some v → is_number v = true) →
  ∃ e : HTTPException.t,
    AioHttpClientBackend.filter_received_response phrase status (PDict B)
    = Raise (HTTPException_ e)
    ∧ MockTestClientBackend.mock_filter_received_response phrase status (PDict B)
      = Raise (HTTPException_ e)
    ∧ HTTPException.status_code e = status
    ∧ HTTPException.detail e = Some (PStr (phrase status))
    ∧ (py_gt_0 (default (PInt 0) (B !! "code")) = Return true →
       HTTPException.trace_code e = Some (default (PInt 0) (B !! "code")))
    ∧ (py_gt_0 (default (PInt 0) (B !! "code")) = Return false →
       HTTPException.trace_code e = None)
    ∧ (B !! "code" = None ∨ B !! "code" = Some (PInt 0) →
       HTTPException.trace_code e = None).
Proof.
  intros Hstatus Hnum.
  change (MockTestClientBackend.mock_filter_received_response phrase status (PDict B))
    with (AioHttpClientBackend.filter_received_response phrase status (PDict B)).
  rewrite (filter_classified phrase status (PDict B) Hstatus).
  cbn [py_get mbind result_bind].
  set (code := default (PInt 0) (B !! "code")).
  assert (Hcode : is_number code = true).
  { subst code. destruct (B !! "code") as [v |] eqn:Hv; [by apply Hnum | done]. }
  assert (Hzero : B !! "code" = None ∨ B !! "code" = Some (PInt 0) →
                  py_gt_0 code = Return false).
  { subst code. by intros [-> | ->]. }
  destruct code as [| b | z | f | | |]; try discriminate Hcode; cbn [py_gt_0] in *.
  - destruct (0 <? Z.b2z b) eqn:Hb; eexists; repeat split; cbn;
      try done; intros H'; apply Hzero in H'; congruence.
  - destruct (0 <? z) eqn:Hz; eexists; repeat split; cbn;
      try done; intros H'; apply Hzero in H'; congruence.
  - destruct (PrimFloat.ltb PrimFloat.zero f) eqn:Hf; eexists; repeat split; cbn;
      try done; intros H'; apply Hzero in H'; congruence.
Qed.

Lemma filter_classified_numeric_code_witness :
  404 ∈ [400; 401; 403; 404; 409]
  ∧ (∀ v, ({[ "code" := PInt 7 ]} : gmap string pyval) !! "code" = Some v →
          is_number v = true)
  ∧ ∃ e : HTTPException.t,
      AioHttpClientBackend.filter_received_response reason_phrases 404
        (PDict {[ "code" := PInt 7 ]})
      = Raise (HTTPException_ e)
      ∧ HTTPException.status_code e = 404
      ∧ HTTPException.detail e = Some (PStr "Not Found")
      ∧ HTTPException.trace_code e = Some (PInt 7).
Proof.
  assert (Hin : 404 ∈ [400; 401; 403; 404; 409]) by set_solver.
  assert (Hnum : ∀ v, ({[ "code" := PInt 7 ]} : gmap string pyval) !! "code" = Some v →
                      is_number v = true).
  { intros v Hv. vm_compute in Hv. injection Hv as <-. reflexivity. }
  split; [exact Hin |]. split; [exact Hnum |].
  destruct (filter_classified_numeric_code reason_phrases 404
              {[ "code" := PInt 7 ]} Hin Hnum)
    as (e & He & _ & Hs & Hd & Ht & _ & _).
  exists e. repeat split; [exact He | exact Hs | exact Hd |].
  apply Ht. reflexivity.
Defined.

(** C2: for status 422 and every body [B], both copies of the filter raise an
    [HTTPException] with [status_code] 422 whose [detail] is [B] itself,
    whatever [B] is. *)
Theorem filter_422_detail_is_body (phrase : Z → string) (B : pyval) :
  AioHttpClientBackend.filter_received_response phrase 422 B
  = Raise (HTTPException_
             {| HTTPException.status_code := 422;
                HTTPException.trace_code := None;
                HTTPException.detail := Some B |})
  ∧ MockTestClientBackend.mock_filter_received_response phrase 422 B
    = Raise (HTTPException_
               {| HTTPException.status_code := 422;
                  HTTPException.trace_code := None;
                  HTTPException.detail := Some B |}).
Proof. split; reflexivity. Qed.

(** C4: for every status and body the filter of the test backend and the
    filter of the production backend have the same outcome: both pass
    through, or both raise the same exception, an [HTTPException] with the
    same [status_code], [trace_code] and [detail] where it is one. *)
Theorem mock_filter_same_outcome (phrase : Z → string) (status : Z) (body : pyval) :
  MockTestClientBackend.mock_filter_received_response phrase status body
  = AioHttpClientBackend.filter_received_response phrase status body.
Proof.
  unfold MockTestClientBackend.mock_filter_received_response,
    AioHttpClientBackend.filter_received_response.
  destruct (py_in status _); [| destruct (status =? _); [| destruct (py_in status _)]];
    reflexivity.
Qed.

(** C10: for every status in {400, 401, 403, 404, 409}, when the ["code"] key
    of the body maps to a value that has no ordering against the integer 0 (a
    string, a list, a mapping or [None]), both copies of the filter raise
    [TypeError], and so no [HTTPException]. *)
Theorem filter_unorderable_code_type_error
    (phrase : Z → string) (status : Z) (B : gmap string pyval) (v : pyval) :
  status ∈ [400; 401; 403; 404; 409] →
  B !! "code" = Some v →
  is_number v = false →
  AioHttpClientBackend.filter_received_response phrase status (PDict B) = Raise TypeError
  ∧ MockTestClientBackend.mock_filter_received_response phrase status (PDict B)
    = Raise TypeError
  ∧ ∀ e : HTTPException.t,
      AioHttpClientBackend.filter_received_response phrase status (PDict B)
      ≠ Raise (HTTPException_ e)
      ∧ MockTestClientBackend.mock_filter_received_response phrase status (PDict B)
        ≠ Raise (HTTPException_ e).
Proof.
  intros Hstatus Hv Hnum.
  change (MockTestClientBackend.mock_filter_received_response phrase status (PDict B))
    with (AioHttpClientBackend.filter_received_response phrase status (PDict B)).
  rewrite (filter_classified phrase status (PDict B) Hstatus).
  cbn [py_get mbind result_bind]. rewrite Hv. cbn [default].
  destruct v; try discriminate Hnum; cbn; repeat split; congruence.
Qed.

Lemma filter_unorderable_code_type_error_witness :
  409 ∈ [400; 401; 403; 404; 409]
  ∧ ({[ "code" := PStr "E42" ]} : gmap string pyval) !! "code" = Some (PStr "E42")
  ∧ is_number (PStr "E42") = false
  ∧ AioHttpClientBackend.filter_received_response reason_phrases 409
      (PDict {[ "code" := PStr "E42" ]})
    = Raise TypeError.
Proof.
  assert (Hin : 409 ∈ [400; 401; 403; 404; 409]) by set_solver.
  assert (Hv : ({[ "code" := PStr "E42" ]} : gmap string pyval) !! "code"
               = Some (PStr "E42")) by reflexivity.
  split; [exact Hin |]. split; [exact Hv |]. split; [reflexivity |].
  exact (proj1 (filter_unorderable_code_type_error reason_phrases 409
                  {[ "code" := PStr "E42" ]} (PStr "E42") Hin Hv eq_refl)).
Defined.

(** ** Properties of the request paths *)

(** Closes [x ∉ [c1; ...; cn]] for numerals. *)
Ltac not_listed :=
  rewrite !not_elem_of_cons; repeat split; (lia || apply not_elem_of_nil).

(** Unfolds the plumbing of [io], leaving the matches on what the transport
    and the filter answer. *)
Ltac io_unfold :=
  unfold try_except, perform, decode, lift, raise, mbind, io_bind, mret, io_ret;
  cbv beta iota zeta.

Lemma is_server_error_5xx (status : Z) :
  500 ≤ status ≤ 599 → status_codes.is_server_error status = true.
Proof. intros H. unfold status_codes.is_server_error. lia. Qed.

Lemma is_server_error_not_5xx (status : Z) :
  ¬ 500 ≤ status ≤ 599 → status_codes.is_server_error status = false.
Proof. intros H. unfold status_codes.is_server_error. lia. Qed.

(** C5: in both request paths, when the transport reports a 5xx status the
    call raises an [HTTPException] with that status, no [trace_code] and no
    [detail], and the trace gains nothing after the request itself: the body
    is not decoded, whatever decoding it would have given, and the filter is
    not reached.  For the test backend this is shown of
    [mock_prepare_response] and of the five verbs that end in it. *)
Theorem server_error_raises_before_decode
    (json_dumps : pyval → string) (phrase : Z → string) (valid : Z → bool)
    (request : aiohttp.request_args → result aiohttp.ClientResponse)
    (test_client_call : test_client.call_args → result test_client.Response)
    (method url : string) (data headers : pyval) (auth : credentials)
    (timeout : ClientTimeout) (response : aiohttp.ClientResponse)
    (reply : test_client.Response) (auth' : auth_arg) (timeout' : Z)
    (tr : list (event aiohttp.request_args)) (tr' : list (event test_client.call_args)) :
  let c := {| aiohttp.method := method; aiohttp.url := url;
              aiohttp.data := json_dumps data; aiohttp.headers := headers;
              aiohttp.auth := auth; aiohttp.timeout := timeout |} in
  let failure status :=
    Raise (HTTPException_
             {| HTTPException.status_code := status;
                HTTPException.trace_code := None;
                HTTPException.detail := None |}) in
  request c = Return response →
  500 ≤ aiohttp.status response ≤ 599 →
  (∀ c', test_client_call c' = Return reply) →
  500 ≤ test_client.status_code reply ≤ 599 →
  AioHttpClientBackend.request_http json_dumps phrase valid request
    method url data headers auth timeout tr
  = (failure (aiohttp.status response), tr ++ [Request c])
  ∧ MockTestClientBackend.mock_prepare_response phrase valid reply tr'
    = (failure (test_client.status_code reply), tr')
  ∧ (∃ c', MockTestClientBackend.head phrase valid test_client_call
             url headers auth' timeout' tr'
           = (failure (test_client.status_code reply), tr' ++ [Request c']))
  ∧ (∃ c', MockTestClientBackend.get json_dumps phrase valid test_client_call
             url data headers auth' timeout' tr'
           = (failure (test_client.status_code reply), tr' ++ [Request c']))
  ∧ (∃ c', MockTestClientBackend.put json_dumps phrase valid test_client_call
             url data headers auth' timeout' tr'
           = (failure (test_client.status_code reply), tr' ++ [Request c']))
  ∧ (∃ c', MockTestClientBackend.post json_dumps phrase valid test_client_call
             url data headers auth' timeout' tr'
           = (failure (test_client.status_code reply), tr' ++ [Request c']))
  ∧ (∃ c', MockTestClientBackend.delete json_dumps phrase valid test_client_call
             url data headers auth' timeout' tr'
           = (failure (test_client.status_code reply), tr' ++ [Request c'])).
Proof.
  intros c failure Hreq H5xx Hcall H5xx'. subst failure.
  assert (Hprepare : ∀ tr0,
            MockTestClientBackend.mock_prepare_response phrase valid reply tr0
            = (Raise (HTTPException_
                        {| HTTPException.status_code := test_client.status_code reply;
                           HTTPException.trace_code := None;
                           HTTPException.detail := None |}), tr0)).
  { intros tr0. unfold MockTestClientBackend.mock_prepare_response. io_unfold.
    rewrite (is_server_error_5xx _ H5xx'). reflexivity. }
  split; [| split; [apply Hprepare |]].
  - unfold AioHttpClientBackend.request_http. io_unfold. fold c.
    rewrite Hreq. cbv beta iota zeta.
    rewrite (is_server_error_5xx _ H5xx). reflexivity.
  - unfold MockTestClientBackend.head, MockTestClientBackend.get,
      MockTestClientBackend.put, MockTestClientBackend.post,
      MockTestClientBackend.delete, perform, mbind, io_bind.
    cbv beta iota zeta. rewrite !Hcall.
    repeat split; eexists; apply Hprepare.
Qed.

Lemma server_error_raises_before_decode_witness :
  server_garbles 503
    {| aiohttp.method := "get"; aiohttp.url := "/items";
       aiohttp.data := dumps_scalar PNone; aiohttp.headers := PNone;
       aiohttp.auth := NoCredentials; aiohttp.timeout := {| total := 60 |} |}
  = Return {| aiohttp.status := 503;
              aiohttp.json := Raise (OtherError "Expecting value") |}
  ∧ 500 ≤ 503 ≤ 599
  ∧ (∀ c', app_garbles 500 c'
           = Return {| test_client.status_code := 500;
                       test_client.json := Raise (OtherError "Expecting value") |})
  ∧ 500 ≤ 500 ≤ 599
  ∧ outcome (AioHttpClientBackend.request_http dumps_scalar reason_phrases http_status
               (server_garbles 503) "get" "/items" PNone PNone NoCredentials
               {| total := 60 |})
    = Raise (HTTPException_
               {| HTTPException.status_code := 503;
                  HTTPException.trace_code := None;
                  HTTPException.detail := None |})
  ∧ decodes (calls (AioHttpClientBackend.request_http dumps_scalar reason_phrases http_status
                      (server_garbles 503) "get" "/items" PNone PNone NoCredentials
                      {| total := 60 |})) = O.
Proof.
  assert (H503 : 500 ≤ 503 ≤ 599) by lia.
  assert (H500 : 500 ≤ 500 ≤ 599) by lia.
  assert (Hcall : ∀ c', app_garbles 500 c'
                        = Return {| test_client.status_code := 500;
                                    test_client.json := Raise (OtherError "Expecting value") |})
    by reflexivity.
  split; [reflexivity |]. split; [exact H503 |].
  split; [exact Hcall |]. split; [exact H500 |].
  unfold outcome, calls.
  rewrite (proj1 (server_error_raises_before_decode dumps_scalar reason_phrases http_status
                    (server_garbles 503) (app_garbles 500)
                    "get" "/items" PNone PNone NoCredentials {| total := 60 |}
                    {| aiohttp.status := 503;
                       aiohttp.json := Raise (OtherError "Expecting value") |}
                    {| test_client.status_code := 500;
                       test_client.json := Raise (OtherError "Expecting value") |}
                    (AuthObject NoCredentials) 5
                    [] [] eq_refl H503 Hcall H500)).
  split; reflexivity.
Defined.

(** C3, as stated, fails: 500 is none of 400, 401, 403, 404, 409 and 422, and
    the filter lets it through, yet a request answered with status 500 does
    not return a [ClientBackendResponse]. *)
Lemma request_path_500_does_not_return :
  (500 ∉ [400; 401; 403; 404; 409; 422])
  ∧ AioHttpClientBackend.filter_received_response reason_phrases 500 (PDict ∅)
    = Return ()
  ∧ ¬ (∃ r : ClientBackendResponse.t,
          outcome (AioHttpClientBackend.request_http dumps_scalar reason_phrases http_status
                     (server_replies 500 (PDict ∅))
                     "get" "/items" PNone PNone NoCredentials {| total := 60 |})
          = Return r).
Proof.
  split; [not_listed |]. split; [reflexivity |].
  intros [r Hr]. vm_compute in Hr. discriminate Hr.
Qed.

(** The claim of C3 also fails off the mappings: a request answered with
    status 200 and a body that decodes to a list passes the filter and then
    raises, in the constructor of the response. *)
Lemma request_path_list_body_does_not_return :
  AioHttpClientBackend.filter_received_response reason_phrases 200 (PList [PInt 1])
  = Return ()
  ∧ outcome (AioHttpClientBackend.request_http dumps_scalar reason_phrases http_status
               (server_replies 200 (PList [PInt 1]))
               "get" "/items" PNone PNone NoCredentials {| total := 60 |})
    = Raise ValidationError.
Proof. split; reflexivity. Qed.

(** C3, amended: for every status other than 400, 401, 403, 404, 409 and 422
    and every body, neither copy of the filter raises; and when that status
    is a valid HTTP status that is not a server error (5xx) and the body
    decodes to a mapping, so that the request path reaches the filter and the
    response can be built, a request answered with that status and body
    returns a [ClientBackendResponse] whose [status_code] is the status and
    whose [response] is the decoded mapping, in both backends. *)
Theorem unclassified_status_passes_through
    (json_dumps : pyval → string) (phrase : Z → string) (valid : Z → bool)
    (request : aiohttp.request_args → result aiohttp.ClientResponse)
    (method url : string) (data headers : pyval) (auth : credentials)
    (timeout : ClientTimeout) (status : Z) (body : pyval)
    (d : gmap string pyval) :
  status ∉ [400; 401; 403; 404; 409; 422] →
  AioHttpClientBackend.filter_received_response phrase status body = Return ()
  ∧ MockTestClientBackend.mock_filter_received_response phrase status body = Return ()
  ∧ (valid status = true →
     ¬ 500 ≤ status ≤ 599 →
     request {| aiohttp.method := method; aiohttp.url := url;
                aiohttp.data := json_dumps data; aiohttp.headers := headers;
                aiohttp.auth := auth; aiohttp.timeout := timeout |}
     = Return {| aiohttp.status := status; aiohttp.json := Return (PDict d) |} →
     outcome (AioHttpClientBackend.request_http json_dumps phrase valid request
                method url data headers auth timeout)
     = Return {| ClientBackendResponse.status_code := status;
                 ClientBackendResponse.response := d |})
  ∧ (valid status = true →
     ¬ 500 ≤ status ≤ 599 →
     outcome (MockTestClientBackend.mock_prepare_response phrase valid
                {| test_client.status_code := status;
                   test_client.json := Return (PDict d) |})
     = Return {| ClientBackendResponse.status_code := status;
                 ClientBackendResponse.response := d |}).
Proof.
  intros Hstatus.
  destruct (py_in_unclassified status Hstatus) as [Hin H422].
  assert (Hfilter : ∀ B, AioHttpClientBackend.filter_received_response phrase status B
                         = Return ()).
  { intros B. unfold AioHttpClientBackend.filter_received_response.
    rewrite Hin, H422. by case_match. }
  split; [apply Hfilter |]. split; [apply Hfilter |]. split.
  - intros Hvalid Hnot Hreq.
    unfold outcome, AioHttpClientBackend.request_http. io_unfold.
    rewrite Hreq. cbv beta iota zeta. cbn [aiohttp.status aiohttp.json].
    rewrite (is_server_error_not_5xx _ Hnot), Hfilter.
    unfold ClientBackendResponse.new. rewrite Hvalid.
    by destruct (status_codes.is_client_error status).
  - intros Hvalid Hnot.
    pose proof (Hfilter (PDict d)) as Hmock.
    change (MockTestClientBackend.mock_filter_received_response phrase status (PDict d)
            = Return ()) in Hmock.
    unfold outcome, MockTestClientBackend.mock_prepare_response. io_unfold.
    cbn [test_client.status_code test_client.json].
    rewrite (is_server_error_not_5xx _ Hnot), Hmock.
    unfold ClientBackendResponse.new. rewrite Hvalid.
    by destruct (status_codes.is_client_error status).
Qed.

Lemma unclassified_status_passes_through_witness :
  (418 ∉ [400; 401; 403; 404; 409; 422])
  ∧ AioHttpClientBackend.filter_received_response reason_phrases 418
      (PDict {[ "x" := PInt 1 ]}) = Return ()
  ∧ http_status 418 = true
  ∧ ¬ 500 ≤ 418 ≤ 599
  ∧ outcome (AioHttpClientBackend.request_http dumps_scalar reason_phrases http_status
               (server_replies 418 (PDict {[ "x" := PInt 1 ]}))
               "get" "/items" PNone PNone NoCredentials {| total := 60 |})
    = Return {| ClientBackendResponse.status_code := 418;
                ClientBackendResponse.response := {[ "x" := PInt 1 ]} |}.
Proof.
  assert (Hout : 418 ∉ [400; 401; 403; 404; 409; 422]) by not_listed.
  assert (Hnot : ¬ 500 ≤ 418 ≤ 599) by lia.
  destruct (unclassified_status_passes_through dumps_scalar reason_phrases http_status
              (server_replies 418 (PDict {[ "x" := PInt 1 ]}))
              "get" "/items" PNone PNone NoCredentials {| total := 60 |}
              418 (PDict {[ "x" := PInt 1 ]}) {[ "x" := PInt 1 ]} Hout)
    as (Hfilter & _ & Hpath & _).
  split; [exact Hout |]. split; [exact Hfilter |].
  split; [reflexivity |]. split; [exact Hnot |].
  apply Hpath; [reflexivity | exact Hnot | reflexivity].
Defined.

(** C6, where the code departs from it: the timeout that the verbs set is
    the total of a [ClientTimeout], and its expiry reaches [request_http] as
    an [asyncio.TimeoutError], which neither [except] clause names.  Such a
    timeout leaves the call as it was raised: no [HTTPException], and so no
    status 408. *)
Theorem total_timeout_escapes_request_http
    (json_dumps : pyval → string) (phrase : Z → string) (valid : Z → bool)
    (request : aiohttp.request_args → result aiohttp.ClientResponse)
    (method url : string) (data headers : pyval) (auth : credentials)
    (timeout : ClientTimeout) (text : string)
    (tr : list (event aiohttp.request_args)) :
  let c := {| aiohttp.method := method; aiohttp.url := url;
              aiohttp.data := json_dumps data; aiohttp.headers := headers;
              aiohttp.auth := auth; aiohttp.timeout := timeout |} in
  let run := AioHttpClientBackend.request_http json_dumps phrase valid request
               method url data headers auth timeout tr in
  request c = Raise (TimeoutError text) →
  run = (Raise (TimeoutError text), tr ++ [Request c])
  ∧ ∀ e : HTTPException.t, fst run ≠ Raise (HTTPException_ e).
Proof.
  intros c run Hreq. subst run.
  unfold AioHttpClientBackend.request_http. io_unfold. fold c.
  rewrite Hreq. split; [reflexivity |]. intros e. discriminate.
Qed.

Lemma total_timeout_escapes_request_http_witness :
  network_fails (TimeoutError "")
    {| aiohttp.method := "get"; aiohttp.url := "/items";
       aiohttp.data := dumps_scalar PNone; aiohttp.headers := PNone;
       aiohttp.auth := NoCredentials; aiohttp.timeout := {| total := 1 |} |}
  = Raise (TimeoutError "")
  ∧ outcome (AioHttpClientBackend.get dumps_scalar reason_phrases http_status
               (network_fails (TimeoutError ""))
               "/items" PNone PNone (AuthObject NoCredentials) 1)
    = Raise (TimeoutError "").
Proof.
  split; [reflexivity |].
  exact (f_equal fst
           (proj1 (total_timeout_escapes_request_http dumps_scalar reason_phrases
                     http_status (network_fails (TimeoutError ""))
                     "get" "/items" PNone PNone NoCredentials {| total := 1 |}
                     "" [] eq_refl))).
Defined.

(** X14: in the production backend an [aiohttp.ServerTimeoutError] raised by
    the transport becomes an [HTTPException] with status 408 and the text of
    the error as [detail]; any other [aiohttp.ClientError] becomes an
    [HTTPException] with status 503 and the text of the error as [detail].
    This holds where the request itself fails and where reading the body of
    an answered request fails. *)
Theorem transport_errors_become_408_and_503
    (json_dumps : pyval → string) (phrase : Z → string) (valid : Z → bool)
    (request : aiohttp.request_args → result aiohttp.ClientResponse)
    (method url : string) (data headers : pyval) (auth : credentials)
    (timeout : ClientTimeout) (text : string) (status : Z)
    (tr : list (event aiohttp.request_args)) :
  let c := {| aiohttp.method := method; aiohttp.url := url;
              aiohttp.data := json_dumps data; aiohttp.headers := headers;
              aiohttp.auth := auth; aiohttp.timeout := timeout |} in
  let run := AioHttpClientBackend.request_http json_dumps phrase valid request
               method url data headers auth timeout tr in
  let failure code :=
    Raise (HTTPException_
             {| HTTPException.status_code := code;
                HTTPException.trace_code := None;
                HTTPException.detail := Some (PStr text) |}) in
  (request c = Raise (ServerTimeoutError text) →
   run = (failure 408, tr ++ [Request c]))
  ∧ (request c = Raise (ClientError text) →
     run = (failure 503, tr ++ [Request c]))
  ∧ (¬ 500 ≤ status ≤ 599 →
     request c = Return {| aiohttp.status := status;
                           aiohttp.json := Raise (ServerTimeoutError text) |} →
     run = (failure 408, (tr ++ [Request c]) ++ [Json]))
  ∧ (¬ 500 ≤ status ≤ 599 →
     request c = Return {| aiohttp.status := status;
                           aiohttp.json := Raise (ClientError text) |} →
     run = (failure 503, (tr ++ [Request c]) ++ [Json])).
Proof.
  intros c run failure. subst run failure.
  unfold AioHttpClientBackend.request_http. io_unfold. fold c.
  repeat split.
  - intros ->. reflexivity.
  - intros ->. reflexivity.
  - intros Hnot ->. cbv beta iota zeta. cbn [aiohttp.status aiohttp.json].
    rewrite (is_server_error_not_5xx _ Hnot).
    by destruct (status_codes.is_client_error status).
  - intros Hnot ->. cbv beta iota zeta. cbn [aiohttp.status aiohttp.json].
    rewrite (is_server_error_not_5xx _ Hnot).
    by destruct (status_codes.is_client_error status).
Qed.

Lemma transport_errors_become_408_and_503_witness :
  (network_fails (ServerTimeoutError "Timeout on reading data from socket")
     {| aiohttp.method := "get"; aiohttp.url := "/items";
        aiohttp.data := dumps_scalar PNone; aiohttp.headers := PNone;
        aiohttp.auth := NoCredentials; aiohttp.timeout := {| total := 60 |} |}
   = Raise (ServerTimeoutError "Timeout on reading data from socket")
   ∧ outcome (AioHttpClientBackend.request_http dumps_scalar reason_phrases http_status
                (network_fails (ServerTimeoutError "Timeout on reading data from socket"))
                "get" "/items" PNone PNone NoCredentials {| total := 60 |})
     = Raise (HTTPException_
                {| HTTPException.status_code := 408;
                   HTTPException.trace_code := None;
                   HTTPException.detail :=
                     Some (PStr "Timeout on reading data from socket") |}))
  ∧ (network_fails (ClientError "Cannot connect to host")
       {| aiohttp.method := "get"; aiohttp.url := "/items";
          aiohttp.data := dumps_scalar PNone; aiohttp.headers := PNone;
          aiohttp.auth := NoCredentials; aiohttp.timeout := {| total := 60 |} |}
     = Raise (ClientError "Cannot connect to host")
     ∧ outcome (AioHttpClientBackend.request_http dumps_scalar reason_phrases http_status
                  (network_fails (ClientError "Cannot connect to host"))
                  "get" "/items" PNone PNone NoCredentials {| total := 60 |})
       = Raise (HTTPException_
                  {| HTTPException.status_code := 503;
                     HTTPException.trace_code := None;
                     HTTPException.detail := Some (PStr "Cannot connect to host") |})).
Proof.
  split; (split; [reflexivity |]); unfold outcome.
  - rewrite (proj1 (transport_errors_become_408_and_503 dumps_scalar reason_phrases http_status
                      (network_fails (ServerTimeoutError "Timeout on reading data from socket"))
                      "get" "/items" PNone PNone NoCredentials {| total := 60 |}
                      "Timeout on reading data from socket" 200 []) eq_refl).
    reflexivity.
  - rewrite (proj1 (proj2 (transport_errors_become_408_and_503 dumps_scalar reason_phrases http_status
                      (network_fails (ClientError "Cannot connect to host"))
                      "get" "/items" PNone PNone NoCredentials {| total := 60 |}
                      "Cannot connect to host" 200 [])) eq_refl).
    reflexivity.
Defined.

(** C9: [send], on either backend and for every combination of arguments,
    raises [NotImplementedError] and leaves the trace as it found it: no call
    of the transport, no [ClientBackendResponse]. *)
Theorem send_not_implemented
    (url : string) (data header : pyval) (auth : auth_arg) (timeout : Z)
    (tr : list (event aiohttp.request_args)) (tr' : list (event test_client.call_args)) :
  AioHttpClientBackend.send url data header auth timeout tr
  = (Raise NotImplementedError, tr)
  ∧ MockTestClientBackend.send url data header auth timeout tr'
    = (Raise NotImplementedError, tr').
Proof. split; reflexivity. Qed.

(** ** What the verbs hand to the transport *)

Lemma requests_app {C} (tr1 tr2 : list (event C)) :
  requests (tr1 ++ tr2) = requests tr1 ++ requests tr2.
Proof.
  induction tr1 as [| [c |] tr1 IH]; cbn [app requests]; [done | | done].
  by rewrite IH.
Qed.

(** A run of [request_http] calls the transport once, with the arguments it
    was given and the serialised [data]. *)
Lemma request_http_requests
    (json_dumps : pyval → string) (phrase : Z → string) (valid : Z → bool)
    (request : aiohttp.request_args → result aiohttp.ClientResponse)
    (method url : string) (data headers : pyval) (auth : credentials)
    (timeout : ClientTimeout) :
  requests (calls (AioHttpClientBackend.request_http json_dumps phrase valid request
                     method url data headers auth timeout))
  = [ {| aiohttp.method := method; aiohttp.url := url;
         aiohttp.data := json_dumps data; aiohttp.headers := headers;
         aiohttp.auth := auth; aiohttp.timeout := timeout |} ].
Proof.
  unfold calls, AioHttpClientBackend.request_http. io_unfold.
  destruct (request _) as [response | err]; cbv beta iota zeta.
  - destruct (status_codes.is_server_error _); [reflexivity |].
    destruct (status_codes.is_client_error _);
      (destruct (aiohttp.json response) as [body | err];
       [destruct (AioHttpClientBackend.filter_received_response _ _ _) as [[] | err];
        [destruct (ClientBackendResponse.new _ _ _) as [r | err] |] |];
       try destruct err; reflexivity).
  - destruct err; reflexivity.
Qed.

(** Preparing the response calls the test client no further. *)
Lemma mock_prepare_response_requests
    (phrase : Z → string) (valid : Z → bool) (response : test_client.Response)
    (tr : list (event test_client.call_args)) :
  requests (snd (MockTestClientBackend.mock_prepare_response phrase valid response tr))
  = requests tr.
Proof.
  unfold MockTestClientBackend.mock_prepare_response. io_unfold.
  destruct (status_codes.is_server_error _); [reflexivity |].
  destruct (status_codes.is_client_error _);
    (destruct (test_client.json response) as [body | err];
     [destruct (MockTestClientBackend.mock_filter_received_response _ _ _) as [[] | err];
      [destruct (ClientBackendResponse.new _ _ _) as [r | err] |] |];
     cbn [snd]; rewrite requests_app, app_nil_r; reflexivity).
Qed.

(** A verb of the test backend calls the test client once, with the
    arguments of that one call. *)
Lemma mock_verb_requests
    (phrase : Z → string) (valid : Z → bool)
    (test_client_call : test_client.call_args → result test_client.Response)
    (c : test_client.call_args) :
  requests (calls (response ← perform test_client_call c;
                   MockTestClientBackend.mock_prepare_response phrase valid response))
  = [c].
Proof.
  unfold calls, perform, mbind, io_bind. cbv beta iota zeta.
  destruct (test_client_call c) as [response | err]; [| reflexivity].
  apply mock_prepare_response_requests.
Qed.

(** A verb of the production backend first settles its credentials: a
    mapping goes through [BasicAuth], whose error ends the verb before
    anything is sent, and a credential object is taken as it is. *)
Lemma production_verb_run {A}
    (auth : auth_arg) (k : credentials → io aiohttp.request_args A)
    (tr : list (event aiohttp.request_args)) :
  (match auth with
   | AuthDict d =>
       let login := default (PStr "") (d !! "username") in
       let password := default (PStr "") (d !! "password") in
       lift (BasicAuth_new login password)
   | AuthObject c => mret c
   end ≫= k) tr
  = match auth with
    | AuthDict d =>
        match BasicAuth_new (default (PStr "") (d !! "username"))
                            (default (PStr "") (d !! "password")) with
        | Return cred => k cred tr
        | Raise e => (Raise e, tr)
        end
    | AuthObject c => k c tr
    end.
Proof.
  destruct auth as [d | c]; [| reflexivity].
  unfold lift, mbind, io_bind. cbv beta iota zeta.
  by destruct (BasicAuth_new _ _).
Qed.

(** The requests of a verb of the production backend: the one request of
    [request_http] with the settled credentials, or none. *)
Lemma production_verb_requests
    (json_dumps : pyval → string) (phrase : Z → string) (valid : Z → bool)
    (request : aiohttp.request_args → result aiohttp.ClientResponse)
    (auth : auth_arg) (method url : string) (data header : pyval) (timeout : Z) :
  requests (calls (match auth with
                   | AuthDict d =>
                       let login := default (PStr "") (d !! "username") in
                       let password := default (PStr "") (d !! "password") in
                       lift (BasicAuth_new login password)
                   | AuthObject c => mret c
                   end ≫= λ auth_method,
                     AioHttpClientBackend.request_http json_dumps phrase valid request
                       method url data header auth_method {| total := timeout |}))
  = let sends cred :=
      [ {| aiohttp.method := method; aiohttp.url := url;
           aiohttp.data := json_dumps data; aiohttp.headers := header;
           aiohttp.auth := cred; aiohttp.timeout := {| total := timeout |} |} ] in
    match auth with
    | AuthDict d =>
        match BasicAuth_new (default (PStr "") (d !! "username"))
                            (default (PStr "") (d !! "password")) with
        | Return cred => sends cred
        | Raise _ => []
        end
    | AuthObject c => sends c
    end.
Proof.
  unfold calls. rewrite production_verb_run. cbv zeta.
  destruct auth as [d | c]; [destruct (BasicAuth_new _ _) as [cred | e] |];
    try reflexivity; apply request_http_requests.
Qed.

(** C7, where the code departs from it: [get] of the test backend hands the
    test client the serialisation of the caller's [data], whatever [data]
    is, while [head] of the test backend sends no body and every request
    that [get] and [head] of the production backend make carries the
    serialisation of [None]. *)
Theorem mock_get_forwards_data
    (json_dumps : pyval → string) (phrase : Z → string) (valid : Z → bool)
    (request : aiohttp.request_args → result aiohttp.ClientResponse)
    (test_client_call : test_client.call_args → result test_client.Response)
    (url : string) (data header : pyval) (auth : auth_arg) (timeout : Z) :
  test_client.data <$>
    requests (calls (MockTestClientBackend.get json_dumps phrase valid test_client_call
                       url data header auth timeout))
  = [Some (json_dumps data)]
  ∧ test_client.data <$>
      requests (calls (MockTestClientBackend.head phrase valid test_client_call
                         url header auth timeout))
    = [None]
  ∧ Forall (λ c, aiohttp.data c = json_dumps PNone)
      (requests (calls (AioHttpClientBackend.get json_dumps phrase valid request
                          url data header auth timeout)))
  ∧ Forall (λ c, aiohttp.data c = json_dumps PNone)
      (requests (calls (AioHttpClientBackend.head json_dumps phrase valid request
                          url header auth timeout))).
Proof.
  unfold MockTestClientBackend.get, MockTestClientBackend.head,
    AioHttpClientBackend.get, AioHttpClientBackend.head.
  rewrite !mock_verb_requests, !production_verb_requests. cbv zeta.
  split; [done |]. split; [done |].
  destruct auth as [d | c]; [destruct (BasicAuth_new _ _) |];
    split; repeat constructor.
Qed.





(** ** The end-to-end scenarios of section 8, run on the production backend *)

Example get_200_returns_body :
  outcome (AioHttpClientBackend.get dumps_scalar reason_phrases http_status
             (server_replies 200 (PDict {[ "x" := PInt 1 ]}))
             "/items" PNone PNone (AuthObject NoCredentials) 5)
  = Return {| ClientBackendResponse.status_code := 200;
              ClientBackendResponse.response := {[ "x" := PInt 1 ]} |}.
Proof. reflexivity. Qed.

Example get_404_with_code_7 :
  outcome (AioHttpClientBackend.get dumps_scalar reason_phrases http_status
             (server_replies 404 (PDict {[ "code" := PInt 7 ]}))
             "/items" PNone PNone (AuthObject NoCredentials) 5)
  = Raise (HTTPException_
             {| HTTPException.status_code := 404;
                HTTPException.trace_code := Some (PInt 7);
                HTTPException.detail := Some (PStr "Not Found") |}).
Proof. reflexivity. Qed.

Example get_404_without_code :
  outcome (AioHttpClientBackend.get dumps_scalar reason_phrases http_status
             (server_replies 404 (PDict ∅))
             "/items" PNone PNone (AuthObject NoCredentials) 5)
  = Raise (HTTPException_
             {| HTTPException.status_code := 404;
                HTTPException.trace_code := None;
                HTTPException.detail := Some (PStr "Not Found") |}).
Proof. reflexivity. Qed.

Example get_422_keeps_payload :
  outcome (AioHttpClientBackend.get dumps_scalar reason_phrases http_status
             (server_replies 422 (PDict {[ "field" := PStr "required" ]}))
             "/items" PNone PNone (AuthObject NoCredentials) 5)
  = Raise (HTTPException_
             {| HTTPException.status_code := 422;
                HTTPException.trace_code := None;
                HTTPException.detail := Some (PDict {[ "field" := PStr "required" ]}) |}).
Proof. reflexivity. Qed.

Example get_server_timeout_is_408 :
  outcome (AioHttpClientBackend.get dumps_scalar reason_phrases http_status
             (network_fails (ServerTimeoutError "Timeout on reading data from socket"))
             "/items" PNone PNone (AuthObject NoCredentials) 5)
  = Raise (HTTPException_
             {| HTTPException.status_code := 408;
                HTTPException.trace_code := None;
                HTTPException.detail :=
                  Some (PStr "Timeout on reading data from socket") |}).
Proof. reflexivity. Qed.

(** A body that is not JSON surfaces on a 200 and not on a 503. *)
Example garbled_body_surfaces_only_below_500 :
  outcome (AioHttpClientBackend.get dumps_scalar reason_phrases http_status (server_garbles 200)
             "/items" PNone PNone (AuthObject NoCredentials) 5)
  = Raise (OtherError "Expecting value")
  ∧ outcome (AioHttpClientBackend.get dumps_scalar reason_phrases http_status (server_garbles 503)
               "/items" PNone PNone (AuthObject NoCredentials) 5)
    = Raise (HTTPException_
               {| HTTPException.status_code := 503;
                  HTTPException.trace_code := None;
                  HTTPException.detail := None |}).
Proof. split; reflexivity. Qed.

(** ** Further properties of the filter *)

Lemma py_in_elem_of (x : Z) (l : list Z) : py_in x l = true ↔ x ∈ l.
Proof.
  unfold py_in. induction l as [| y l IH]; cbn [existsb].
  - rewrite elem_of_nil. split; [discriminate | done].
  - rewrite orb_true_iff, elem_of_cons, IH, Z.eqb_eq. done.
Qed.

Lemma py_in_not_elem_of (x : Z) (l : list Z) : py_in x l = false ↔ x ∉ l.
Proof.
  rewrite <- py_in_elem_of. destruct (py_in x l); split; congruence.
Qed.

(** Every way the filter can end: it returns only off the six classified
    statuses, an [HTTPException] it raises carries the status it was given,
    and the only other exceptions are the [TypeError] and [AttributeError] of
    the extraction of the code. *)
Lemma filter_result_kinds (phrase : Z → string) (status : Z) (body : pyval) :
  match AioHttpClientBackend.filter_received_response phrase status body with
  | Return _ => status ∉ [400; 401; 403; 404; 409; 422]
  | Raise (HTTPException_ h) =>
      HTTPException.status_code h = status
      ∧ status ∈ [400; 401; 403; 404; 409; 422]
  | Raise TypeError | Raise AttributeError => status ∈ [400; 401; 403; 404; 409]
  | Raise _ => False
  end.
Proof.
  unfold AioHttpClientBackend.filter_received_response.
  destruct (py_in status [status_codes.BAD_REQUEST; _; _; _; _]) eqn:Hin.
  - apply py_in_elem_of in Hin.
    change (status ∈ [400; 401; 403; 404; 409]) in Hin.
    assert (Hsix : status ∈ [400; 401; 403; 404; 409; 422]).
    { rewrite ?elem_of_cons, ?elem_of_nil in *. lia. }
    destruct body; cbn [py_get mbind result_bind]; try exact Hin.
    destruct (py_gt_0 _) as [[] |] eqn:Hgt; cbn [mbind result_bind].
    + done.
    + done.
    + destruct (default (PInt 0) (d !! "code")); cbn [py_gt_0] in Hgt;
        try discriminate Hgt; injection Hgt as <-; exact Hin.
  - apply py_in_not_elem_of in Hin.
    change (status ∉ [400; 401; 403; 404; 409]) in Hin.
    destruct (status =? status_codes.UNPROCESSABLE_ENTITY) eqn:H422.
    + apply Z.eqb_eq in H422. unfold status_codes.UNPROCESSABLE_ENTITY in H422.
      split; [done |]. rewrite ?elem_of_cons. lia.
    + apply Z.eqb_neq in H422. unfold status_codes.UNPROCESSABLE_ENTITY in H422.
      assert (Hout : status ∉ [400; 401; 403; 404; 409; 422]).
      { rewrite ?not_elem_of_cons in *.
        repeat split; try tauto; apply not_elem_of_nil. }
      destruct (py_in status [status_codes.OK; _; _]); exact Hout.
Qed.

(** X1: on the five statuses that carry a business code, a decoded body that
    is not a mapping (a list, a string, a number, [None]) makes both copies
    of the filter raise [AttributeError]: the body has no [get]. *)
Theorem filter_non_mapping_body_attribute_error
    (phrase : Z → string) (status : Z) (body : pyval) :
  status ∈ [400; 401; 403; 404; 409] →
  (∀ d : gmap string pyval, body ≠ PDict d) →
  AioHttpClientBackend.filter_received_response phrase status body
  = Raise AttributeError
  ∧ MockTestClientBackend.mock_filter_received_response phrase status body
    = Raise AttributeError.
Proof.
  intros Hstatus Hbody.
  change (MockTestClientBackend.mock_filter_received_response phrase status body)
    with (AioHttpClientBackend.filter_received_response phrase status body).
  rewrite (filter_classified phrase status body Hstatus).
  destruct body; try (split; reflexivity).
  by destruct (Hbody d).
Qed.

Lemma filter_non_mapping_body_attribute_error_witness :
  403 ∈ [400; 401; 403; 404; 409]
  ∧ (∀ d : gmap string pyval, PList [PInt 1; PInt 2] ≠ PDict d)
  ∧ AioHttpClientBackend.filter_received_response reason_phrases 403
      (PList [PInt 1; PInt 2])
    = Raise AttributeError.
Proof.
  assert (Hin : 403 ∈ [400; 401; 403; 404; 409]) by set_solver.
  assert (Hbody : ∀ d : gmap string pyval, PList [PInt 1; PInt 2] ≠ PDict d)
    by (intros d; discriminate).
  split; [exact Hin |]. split; [exact Hbody |].
  exact (proj1 (filter_non_mapping_body_attribute_error reason_phrases 403
                  (PList [PInt 1; PInt 2]) Hin Hbody)).
Defined.

(** X2: on each of the six classified statuses neither copy of the filter
    ever returns, whatever the decoded body is: it raises an [HTTPException]
    carrying that status, or the [TypeError] or [AttributeError] of the
    extraction of the code. *)
Theorem filter_never_passes_classified
    (phrase : Z → string) (status : Z) (body : pyval) :
  status ∈ [400; 401; 403; 404; 409; 422] →
  ∃ e : exn,
    AioHttpClientBackend.filter_received_response phrase status body = Raise e
    ∧ MockTestClientBackend.mock_filter_received_response phrase status body = Raise e
    ∧ (e = TypeError ∨ e = AttributeError
       ∨ ∃ h : HTTPException.t,
           e = HTTPException_ h ∧ HTTPException.status_code h = status).
Proof.
  intros Hstatus.
  change (MockTestClientBackend.mock_filter_received_response phrase status body)
    with (AioHttpClientBackend.filter_received_response phrase status body).
  pose proof (filter_result_kinds phrase status body) as Hkinds.
  destruct (AioHttpClientBackend.filter_received_response phrase status body)
    as [[] | e]; [done |].
  exists e. split; [reflexivity |]. split; [reflexivity |].
  destruct e as [h | | | | | | | | |]; try done.
  - right. right. exists h. by destruct Hkinds.
  - by left.
  - right. by left.
Qed.

Lemma filter_never_passes_classified_witness :
  401 ∈ [400; 401; 403; 404; 409; 422]
  ∧ ∃ e : exn,
      AioHttpClientBackend.filter_received_response reason_phrases 401
        (PDict {[ "code" := PNone ]}) = Raise e.
Proof.
  assert (Hin : 401 ∈ [400; 401; 403; 404; 409; 422]) by set_solver.
  split; [exact Hin |].
  destruct (filter_never_passes_classified reason_phrases 401
              (PDict {[ "code" := PNone ]}) Hin) as (e & He & _).
  exists e. exact He.
Defined.

(** X3: off status 422 the filter reads nothing of a mapping but its ["code"]
    entry, and a missing entry counts as the code 0: two bodies with the same
    [get("code", 0)] have the same outcome. *)
Theorem filter_reads_only_the_code
    (phrase : Z → string) (status : Z) (B B' : gmap string pyval) :
  status ≠ 422 →
  default (PInt 0) (B !! "code") = default (PInt 0) (B' !! "code") →
  AioHttpClientBackend.filter_received_response phrase status (PDict B)
  = AioHttpClientBackend.filter_received_response phrase status (PDict B')
  ∧ MockTestClientBackend.mock_filter_received_response phrase status (PDict B)
    = MockTestClientBackend.mock_filter_received_response phrase status (PDict B').
Proof.
  intros H422 Hcode.
  unfold MockTestClientBackend.mock_filter_received_response,
    AioHttpClientBackend.filter_received_response.
  apply Z.eqb_neq in H422.
  change (status =? status_codes.UNPROCESSABLE_ENTITY) with (status =? 422).
  cbn [py_get mbind result_bind]. rewrite Hcode, H422. done.
Qed.

Lemma filter_reads_only_the_code_witness :
  404 ≠ 422
  ∧ default (PInt 0) ((∅ : gmap string pyval) !! "code")
    = default (PInt 0)
        (({[ "code" := PInt 0; "message" := PStr "gone" ]} : gmap string pyval) !! "code")
  ∧ AioHttpClientBackend.filter_received_response reason_phrases 404 (PDict ∅)
    = AioHttpClientBackend.filter_received_response reason_phrases 404
        (PDict {[ "code" := PInt 0; "message" := PStr "gone" ]}).
Proof.
  assert (Hne : 404 ≠ 422) by lia.
  assert (Hcode : default (PInt 0) ((∅ : gmap string pyval) !! "code")
                  = default (PInt 0)
                      (({[ "code" := PInt 0; "message" := PStr "gone" ]}
                        : gmap string pyval) !! "code")) by reflexivity.
  split; [exact Hne |]. split; [exact Hcode |].
  exact (proj1 (filter_reads_only_the_code reason_phrases 404 ∅
                  {[ "code" := PInt 0; "message" := PStr "gone" ]} Hne Hcode)).
Defined.

(** ** Further properties of the request paths *)

Lemma is_server_error_false (status : Z) :
  status_codes.is_server_error status = false → ¬ 500 ≤ status ≤ 599.
Proof. unfold status_codes.is_server_error. lia. Qed.

(** What the handlers of [request_http] make of an exception is never a
    return. *)
Ltac handler_raises e H := destruct e; cbn [fst raise] in H; discriminate H.

(** X4: a [ClientBackendResponse] returned by [request_http] is always the
    answer of the transport: the request was answered, the returned status is
    the answered status, the returned body is what the answer decoded to, and
    that status is neither a server error nor one of 400, 401, 403, 404, 409
    and 422. *)
Theorem request_http_returns_the_answer
    (json_dumps : pyval → string) (phrase : Z → string) (valid : Z → bool)
    (request : aiohttp.request_args → result aiohttp.ClientResponse)
    (method url : string) (data headers : pyval) (auth : credentials)
    (timeout : ClientTimeout) (r : ClientBackendResponse.t) :
  outcome (AioHttpClientBackend.request_http json_dumps phrase valid request
             method url data headers auth timeout) = Return r →
  ∃ response : aiohttp.ClientResponse,
    request {| aiohttp.method := method; aiohttp.url := url;
               aiohttp.data := json_dumps data; aiohttp.headers := headers;
               aiohttp.auth := auth; aiohttp.timeout := timeout |}
    = Return response
    ∧ aiohttp.status response = ClientBackendResponse.status_code r
    ∧ aiohttp.json response = Return (PDict (ClientBackendResponse.response r))
    ∧ (ClientBackendResponse.status_code r ∉ [400; 401; 403; 404; 409; 422])
    ∧ ¬ 500 ≤ ClientBackendResponse.status_code r ≤ 599.
Proof.
  unfold outcome, AioHttpClientBackend.request_http. io_unfold.
  destruct (request _) as [response | err]; cbv beta iota zeta;
    [| intros H; handler_raises err H].
  destruct (status_codes.is_server_error _) eqn:H5xx;
    [intros H; discriminate H |].
  apply is_server_error_false in H5xx.
  destruct (status_codes.is_client_error _);
    (destruct (aiohttp.json response) as [body | err] eqn:Hjson;
       [| intros H; handler_raises err H];
     pose proof (filter_result_kinds phrase (aiohttp.status response) body) as Hkinds;
     destruct (AioHttpClientBackend.filter_received_response _ _ _) as [[] | err];
       [| intros H; handler_raises err H];
     unfold ClientBackendResponse.new;
     destruct (valid _); [destruct body |];
     cbn [fst]; intros H; try discriminate H;
     injection H as <-; exists response; done).
Qed.

Lemma request_http_returns_the_answer_witness :
  outcome (AioHttpClientBackend.request_http dumps_scalar reason_phrases http_status
             (server_replies 201 (PDict {[ "id" := PInt 9 ]}))
             "post" "/items" (PBool true) PNone NoCredentials {| total := 60 |})
  = Return {| ClientBackendResponse.status_code := 201;
              ClientBackendResponse.response := {[ "id" := PInt 9 ]} |}
  ∧ ∃ response : aiohttp.ClientResponse,
      server_replies 201 (PDict {[ "id" := PInt 9 ]})
        {| aiohttp.method := "post"; aiohttp.url := "/items";
           aiohttp.data := dumps_scalar (PBool true); aiohttp.headers := PNone;
           aiohttp.auth := NoCredentials; aiohttp.timeout := {| total := 60 |} |}
      = Return response
      ∧ aiohttp.status response = 201.
Proof.
  assert (Hout :
    outcome (AioHttpClientBackend.request_http dumps_scalar reason_phrases http_status
               (server_replies 201 (PDict {[ "id" := PInt 9 ]}))
               "post" "/items" (PBool true) PNone NoCredentials {| total := 60 |})
    = Return {| ClientBackendResponse.status_code := 201;
                ClientBackendResponse.response := {[ "id" := PInt 9 ]} |})
    by reflexivity.
  split; [exact Hout |].
  destruct (request_http_returns_the_answer _ _ _ _ _ _ _ _ _ _ _ Hout)
    as (response & Hreq & Hstatus & _).
  exists response. split; [exact Hreq | exact Hstatus].
Defined.

(** X5: likewise a [ClientBackendResponse] returned by
    [mock_prepare_response] carries the status of the response it was given
    and what that response decoded to, and that status is neither a server
    error nor one of 400, 401, 403, 404, 409 and 422. *)
Theorem mock_prepare_response_returns_the_answer
    (phrase : Z → string) (valid : Z → bool) (reply : test_client.Response)
    (r : ClientBackendResponse.t) :
  outcome (MockTestClientBackend.mock_prepare_response phrase valid reply) = Return r →
  test_client.status_code reply = ClientBackendResponse.status_code r
  ∧ test_client.json reply = Return (PDict (ClientBackendResponse.response r))
  ∧ (ClientBackendResponse.status_code r ∉ [400; 401; 403; 404; 409; 422])
  ∧ ¬ 500 ≤ ClientBackendResponse.status_code r ≤ 599.
Proof.
  unfold outcome, MockTestClientBackend.mock_prepare_response. io_unfold.
  destruct (status_codes.is_server_error _) eqn:H5xx;
    [intros H; discriminate H |].
  apply is_server_error_false in H5xx.
  destruct (status_codes.is_client_error _);
    (destruct (test_client.json reply) as [body | err] eqn:Hjson;
       [| intros H; discriminate H];
     pose proof (filter_result_kinds phrase (test_client.status_code reply) body)
       as Hkinds;
     change (AioHttpClientBackend.filter_received_response phrase
               (test_client.status_code reply) body)
       with (MockTestClientBackend.mock_filter_received_response phrase
               (test_client.status_code reply) body) in Hkinds;
     destruct (MockTestClientBackend.mock_filter_received_response _ _ _)
       as [[] | err];
       [| intros H; discriminate H];
     unfold ClientBackendResponse.new;
     destruct (valid _); [destruct body |];
     cbn [fst]; intros H; try discriminate H;
     injection H as <-; done).
Qed.

Lemma mock_prepare_response_returns_the_answer_witness :
  outcome (MockTestClientBackend.mock_prepare_response reason_phrases http_status
             {| test_client.status_code := 202;
                test_client.json := Return (PDict {[ "queued" := PBool true ]}) |})
  = Return {| ClientBackendResponse.status_code := 202;
              ClientBackendResponse.response := {[ "queued" := PBool true ]} |}
  ∧ (202 ∉ [400; 401; 403; 404; 409; 422]).
Proof.
  assert (Hout :
    outcome (MockTestClientBackend.mock_prepare_response reason_phrases http_status
               {| test_client.status_code := 202;
                  test_client.json := Return (PDict {[ "queued" := PBool true ]}) |})
    = Return {| ClientBackendResponse.status_code := 202;
                ClientBackendResponse.response := {[ "queued" := PBool true ]} |})
    by reflexivity.
  split; [exact Hout |].
  exact (proj1 (proj2 (proj2
    (mock_prepare_response_returns_the_answer _ _ _ _ Hout)))).
Defined.

(** X6: once a request is answered with a status that is not a server error
    and a body that decodes, the outcome of [request_http] follows the filter:
    where the filter raises, the very exception it raised, which neither
    [except] clause rewrites; where it returns, what the construction of the
    response from that status and body gives, the response or the error of
    the constructor, which passes the [except] clauses as well. *)
Theorem request_http_follows_the_filter
    (json_dumps : pyval → string) (phrase : Z → string) (valid : Z → bool)
    (request : aiohttp.request_args → result aiohttp.ClientResponse)
    (method url : string) (data headers : pyval) (auth : credentials)
    (timeout : ClientTimeout) (status : Z) (body : pyval) :
  ¬ 500 ≤ status ≤ 599 →
  request {| aiohttp.method := method; aiohttp.url := url;
             aiohttp.data := json_dumps data; aiohttp.headers := headers;
             aiohttp.auth := auth; aiohttp.timeout := timeout |}
  = Return {| aiohttp.status := status; aiohttp.json := Return body |} →
  outcome (AioHttpClientBackend.request_http json_dumps phrase valid request
             method url data headers auth timeout)
  = match AioHttpClientBackend.filter_received_response phrase status body with
    | Return _ =>
        match body with
        | PDict d =>
            if valid status
            then Return {| ClientBackendResponse.status_code := status;
                           ClientBackendResponse.response := d |}
            else Raise ValidationError
        | _ => Raise ValidationError
        end
    | Raise e => Raise e
    end.
Proof.
  intros Hnot Hreq.
  unfold outcome, AioHttpClientBackend.request_http. io_unfold.
  rewrite Hreq. cbv beta iota zeta. cbn [aiohttp.status aiohttp.json].
  rewrite (is_server_error_not_5xx _ Hnot).
  pose proof (filter_result_kinds phrase status body) as Hkinds.
  destruct (status_codes.is_client_error status);
    (destruct (AioHttpClientBackend.filter_received_response phrase status body)
       as [[] | err];
     [ unfold ClientBackendResponse.new;
       destruct (valid status); destruct body; reflexivity
     | destruct err; try reflexivity; destruct Hkinds ]).
Qed.

Lemma request_http_follows_the_filter_witness :
  ¬ 500 ≤ 409 ≤ 599
  ∧ server_replies 409 (PDict {[ "code" := PInt 31 ]})
      {| aiohttp.method := "put"; aiohttp.url := "/items/4";
         aiohttp.data := dumps_scalar PNone; aiohttp.headers := PNone;
         aiohttp.auth := NoCredentials; aiohttp.timeout := {| total := 60 |} |}
    = Return {| aiohttp.status := 409;
                aiohttp.json := Return (PDict {[ "code" := PInt 31 ]}) |}
  ∧ outcome (AioHttpClientBackend.request_http dumps_scalar reason_phrases http_status
               (server_replies 409 (PDict {[ "code" := PInt 31 ]}))
               "put" "/items/4" PNone PNone NoCredentials {| total := 60 |})
    = Raise (HTTPException_
               {| HTTPException.status_code := 409;
                  HTTPException.trace_code := Some (PInt 31);
                  HTTPException.detail := Some (PStr "Conflict") |}).
Proof.
  assert (Hnot : ¬ 500 ≤ 409 ≤ 599) by lia.
  split; [exact Hnot |]. split; [reflexivity |].
  rewrite (request_http_follows_the_filter dumps_scalar reason_phrases http_status
             (server_replies 409 (PDict {[ "code" := PInt 31 ]}))
             "put" "/items/4" PNone PNone NoCredentials {| total := 60 |}
             409 (PDict {[ "code" := PInt 31 ]}) Hnot eq_refl).
  reflexivity.
Defined.

(** X7: the two backends agree on an answered request.  Given the same
    status and the same outcome of decoding the body, [request_http] and
    [mock_prepare_response] end alike, for every status, as long as decoding
    does not fail with an error of aiohttp (which only the first catches). *)
Theorem backends_agree_on_an_answer
    (json_dumps : pyval → string) (phrase : Z → string) (valid : Z → bool)
    (request : aiohttp.request_args → result aiohttp.ClientResponse)
    (method url : string) (data headers : pyval) (auth : credentials)
    (timeout : ClientTimeout) (status : Z) (decoded : result pyval) :
  (∀ text, decoded ≠ Raise (ServerTimeoutError text)) →
  (∀ text, decoded ≠ Raise (ClientError text)) →
  request {| aiohttp.method := method; aiohttp.url := url;
             aiohttp.data := json_dumps data; aiohttp.headers := headers;
             aiohttp.auth := auth; aiohttp.timeout := timeout |}
  = Return {| aiohttp.status := status; aiohttp.json := decoded |} →
  outcome (AioHttpClientBackend.request_http json_dumps phrase valid request
             method url data headers auth timeout)
  = outcome (MockTestClientBackend.mock_prepare_response phrase valid
               {| test_client.status_code := status;
                  test_client.json := decoded |}).
Proof.
  intros Htimeout Hclient Hreq.
  unfold outcome, AioHttpClientBackend.request_http,
    MockTestClientBackend.mock_prepare_response. io_unfold.
  rewrite Hreq. cbv beta iota zeta.
  cbn [aiohttp.status aiohttp.json test_client.status_code test_client.json].
  destruct (status_codes.is_server_error status); [reflexivity |].
  destruct (status_codes.is_client_error status);
    (destruct decoded as [body | err];
     [ pose proof (filter_result_kinds phrase status body) as Hkinds;
       change (MockTestClientBackend.mock_filter_received_response phrase status body)
         with (AioHttpClientBackend.filter_received_response phrase status body);
       destruct (AioHttpClientBackend.filter_received_response phrase status body)
         as [[] | err];
       [ unfold ClientBackendResponse.new;
         destruct (valid status); destruct body; reflexivity |];
       destruct err; try reflexivity; destruct Hkinds
     | destruct err; try reflexivity;
       [by destruct (Htimeout text) | by destruct (Hclient text)] ]).
Qed.

Lemma backends_agree_on_an_answer_witness :
  (∀ text, Return (PDict {[ "code" := PInt 7 ]}) ≠ Raise (ServerTimeoutError text))
  ∧ (∀ text, Return (PDict {[ "code" := PInt 7 ]}) ≠ Raise (ClientError text))
  ∧ server_replies 404 (PDict {[ "code" := PInt 7 ]})
      {| aiohttp.method := "get"; aiohttp.url := "/items/7";
         aiohttp.data := dumps_scalar PNone; aiohttp.headers := PNone;
         aiohttp.auth := NoCredentials; aiohttp.timeout := {| total := 5 |} |}
    = Return {| aiohttp.status := 404;
                aiohttp.json := Return (PDict {[ "code" := PInt 7 ]}) |}
  ∧ outcome (AioHttpClientBackend.request_http dumps_scalar reason_phrases http_status
               (server_replies 404 (PDict {[ "code" := PInt 7 ]}))
               "get" "/items/7" PNone PNone NoCredentials {| total := 5 |})
    = outcome (MockTestClientBackend.mock_prepare_response reason_phrases http_status
                 {| test_client.status_code := 404;
                    test_client.json := Return (PDict {[ "code" := PInt 7 ]}) |}).
Proof.
  assert (H1 : ∀ text, Return (PDict {[ "code" := PInt 7 ]})
                       ≠ Raise (ServerTimeoutError text)) by (intros ?; discriminate).
  assert (H2 : ∀ text, Return (PDict {[ "code" := PInt 7 ]})
                       ≠ Raise (ClientError text)) by (intros ?; discriminate).
  split; [exact H1 |]. split; [exact H2 |]. split; [reflexivity |].
  exact (backends_agree_on_an_answer dumps_scalar reason_phrases http_status
           (server_replies 404 (PDict {[ "code" := PInt 7 ]}))
           "get" "/items/7" PNone PNone NoCredentials {| total := 5 |}
           404 (Return (PDict {[ "code" := PInt 7 ]})) H1 H2 eq_refl).
Defined.

(** X8: [request_http] rewrites nothing but the errors of aiohttp.  An
    exception that is neither a [ServerTimeoutError] nor another
    [ClientError] leaves the call as it was raised, whether the request
    raised it or the decoding of the body of an answered request did. *)
Theorem request_http_lets_other_errors_through
    (json_dumps : pyval → string) (phrase : Z → string) (valid : Z → bool)
    (request : aiohttp.request_args → result aiohttp.ClientResponse)
    (method url : string) (data headers : pyval) (auth : credentials)
    (timeout : ClientTimeout) (err : exn) (status : Z)
    (tr : list (event aiohttp.request_args)) :
  let c := {| aiohttp.method := method; aiohttp.url := url;
              aiohttp.data := json_dumps data; aiohttp.headers := headers;
              aiohttp.auth := auth; aiohttp.timeout := timeout |} in
  let run := AioHttpClientBackend.request_http json_dumps phrase valid request
               method url data headers auth timeout tr in
  (∀ text, err ≠ ServerTimeoutError text) →
  (∀ text, err ≠ ClientError text) →
  (request c = Raise err → run = (Raise err, tr ++ [Request c]))
  ∧ (¬ 500 ≤ status ≤ 599 →
     request c = Return {| aiohttp.status := status; aiohttp.json := Raise err |} →
     run = (Raise err, (tr ++ [Request c]) ++ [Json])).
Proof.
  intros c run Htimeout Hclient. subst run.
  unfold AioHttpClientBackend.request_http. io_unfold. fold c.
  split.
  - intros ->.
    destruct err; try reflexivity;
      [by destruct (Htimeout text) | by destruct (Hclient text)].
  - intros Hnot ->. cbv beta iota zeta. cbn [aiohttp.status aiohttp.json].
    rewrite (is_server_error_not_5xx _ Hnot).
    destruct (status_codes.is_client_error status);
      (destruct err; try reflexivity;
       [by destruct (Htimeout text) | by destruct (Hclient text)]).
Qed.

Lemma request_http_lets_other_errors_through_witness :
  (∀ text, OtherError "Expecting value" ≠ ServerTimeoutError text)
  ∧ (∀ text, OtherError "Expecting value" ≠ ClientError text)
  ∧ outcome (AioHttpClientBackend.request_http dumps_scalar reason_phrases http_status
               (server_garbles 200)
               "get" "/items" PNone PNone NoCredentials {| total := 5 |})
    = Raise (OtherError "Expecting value").
Proof.
  assert (H1 : ∀ text, OtherError "Expecting value" ≠ ServerTimeoutError text)
    by (intros ?; discriminate).
  assert (H2 : ∀ text, OtherError "Expecting value" ≠ ClientError text)
    by (intros ?; discriminate).
  assert (Hnot : ¬ 500 ≤ 200 ≤ 599) by lia.
  split; [exact H1 |]. split; [exact H2 |].
  unfold outcome.
  rewrite (proj2 (request_http_lets_other_errors_through dumps_scalar reason_phrases http_status
                    (server_garbles 200)
                    "get" "/items" PNone PNone NoCredentials {| total := 5 |}
                    (OtherError "Expecting value") 200 [] H1 H2) Hnot eq_refl).
  reflexivity.
Defined.

(** X9: the test backend has no [try]: whatever the test client raises, a
    timeout or connection error of aiohttp included, leaves each of the five
    verbs unchanged, after the one call and with nothing decoded. *)
Theorem mock_verbs_let_every_error_through
    (json_dumps : pyval → string) (phrase : Z → string) (valid : Z → bool)
    (test_client_call : test_client.call_args → result test_client.Response)
    (url : string) (data header : pyval) (auth : auth_arg) (timeout : Z)
    (err : exn) (tr : list (event test_client.call_args)) :
  (∀ c, test_client_call c = Raise err) →
  (∃ c, MockTestClientBackend.head phrase valid test_client_call
          url header auth timeout tr = (Raise err, tr ++ [Request c]))
  ∧ (∃ c, MockTestClientBackend.get json_dumps phrase valid test_client_call
            url data header auth timeout tr = (Raise err, tr ++ [Request c]))
  ∧ (∃ c, MockTestClientBackend.put json_dumps phrase valid test_client_call
            url data header auth timeout tr = (Raise err, tr ++ [Request c]))
  ∧ (∃ c, MockTestClientBackend.post json_dumps phrase valid test_client_call
            url data header auth timeout tr = (Raise err, tr ++ [Request c]))
  ∧ (∃ c, MockTestClientBackend.delete json_dumps phrase valid test_client_call
            url data header auth timeout tr = (Raise err, tr ++ [Request c])).
Proof.
  intros Hcall.
  unfold MockTestClientBackend.head, MockTestClientBackend.get,
    MockTestClientBackend.put, MockTestClientBackend.post,
    MockTestClientBackend.delete, perform, mbind, io_bind.
  cbv beta iota zeta. rewrite !Hcall.
  repeat split; eexists; reflexivity.
Qed.

Lemma mock_verbs_let_every_error_through_witness :
  (∀ c : test_client.call_args,
     (λ _, Raise (ServerTimeoutError "Timeout on reading data from socket")) c
     = (Raise (ServerTimeoutError "Timeout on reading data from socket")
        : result test_client.Response))
  ∧ outcome (MockTestClientBackend.get dumps_scalar reason_phrases http_status
               (λ _, Raise (ServerTimeoutError "Timeout on reading data from socket"))
               "/items" PNone PNone (AuthObject NoCredentials) 5)
    = Raise (ServerTimeoutError "Timeout on reading data from socket").
Proof.
  split; [reflexivity |].
  destruct (mock_verbs_let_every_error_through dumps_scalar reason_phrases http_status
              (λ _, Raise (ServerTimeoutError "Timeout on reading data from socket"))
              "/items" PNone PNone (AuthObject NoCredentials) 5
              (ServerTimeoutError "Timeout on reading data from socket") []
              (λ _, eq_refl))
    as (_ & [c Hget] & _).
  unfold outcome. rewrite Hget. reflexivity.
Defined.

(** ** Further properties of the verbs *)

(** X10: each verb of the production backend is a single attempt.  Where
    [auth] is a credential object, or a mapping that [BasicAuth] takes, the
    transport is called exactly once, whatever it answers or raises, with the
    lower-case name of the verb as method, the caller's url and headers, and
    the caller's timeout as the total of a [ClientTimeout]; [head] and [get]
    send the serialisation of [None], and [put], [post] and [delete] that of
    the caller's data.  Where [auth] is a mapping that [BasicAuth] refuses,
    the transport is not called at all. *)
Theorem production_verbs_request_once
    (json_dumps : pyval → string) (phrase : Z → string) (valid : Z → bool)
    (request : aiohttp.request_args → result aiohttp.ClientResponse)
    (url : string) (data header : pyval) (auth : auth_arg) (timeout : Z) :
  let sent m :=
    (λ c, (aiohttp.method c, aiohttp.url c, aiohttp.data c,
           aiohttp.headers c, aiohttp.timeout c)) <$> requests (calls m) in
  let unless_refused (l : list (string * string * string * pyval * ClientTimeout)) :=
    match auth with
    | AuthDict d =>
        match BasicAuth_new (default (PStr "") (d !! "username"))
                            (default (PStr "") (d !! "password")) with
        | Return _ => l
        | Raise _ => []
        end
    | AuthObject _ => l
    end in
  sent (AioHttpClientBackend.head json_dumps phrase valid request url header auth timeout)
  = unless_refused [("head", url, json_dumps PNone, header, {| total := timeout |})]
  ∧ sent (AioHttpClientBackend.get json_dumps phrase valid request url data header auth timeout)
    = unless_refused [("get", url, json_dumps PNone, header, {| total := timeout |})]
  ∧ sent (AioHttpClientBackend.put json_dumps phrase valid request url data header auth timeout)
    = unless_refused [("put", url, json_dumps data, header, {| total := timeout |})]
  ∧ sent (AioHttpClientBackend.post json_dumps phrase valid request url data header auth timeout)
    = unless_refused [("post", url, json_dumps data, header, {| total := timeout |})]
  ∧ sent (AioHttpClientBackend.delete json_dumps phrase valid request url data header auth timeout)
    = unless_refused [("delete", url, json_dumps data, header, {| total := timeout |})].
Proof.
  intros sent unless_refused. subst sent unless_refused.
  unfold AioHttpClientBackend.head, AioHttpClientBackend.get,
    AioHttpClientBackend.put, AioHttpClientBackend.post,
    AioHttpClientBackend.delete.
  rewrite !production_verb_requests. cbv beta zeta.
  destruct auth as [d | c]; [destruct (BasicAuth_new _ _) |]; done.
Qed.

(** X11: each verb of the test backend calls the test client exactly once,
    whatever it answers or raises, under the name of the verb, with the
    caller's url and headers and the caller's timeout as it is; [head] passes
    no data, and [get], [put], [post] and [delete] pass the serialisation of
    the caller's data. *)
Theorem mock_verbs_call_once
    (json_dumps : pyval → string) (phrase : Z → string) (valid : Z → bool)
    (test_client_call : test_client.call_args → result test_client.Response)
    (url : string) (data header : pyval) (auth : auth_arg) (timeout : Z) :
  let sent m :=
    (λ c, (test_client.verb c, test_client.url c, test_client.data c,
           test_client.headers c, test_client.timeout c)) <$> requests (calls m) in
  sent (MockTestClientBackend.head phrase valid test_client_call url header auth timeout)
  = [("head", url, None, header, timeout)]
  ∧ sent (MockTestClientBackend.get json_dumps phrase valid test_client_call
            url data header auth timeout)
    = [("get", url, Some (json_dumps data), header, timeout)]
  ∧ sent (MockTestClientBackend.put json_dumps phrase valid test_client_call
            url data header auth timeout)
    = [("put", url, Some (json_dumps data), header, timeout)]
  ∧ sent (MockTestClientBackend.post json_dumps phrase valid test_client_call
            url data header auth timeout)
    = [("post", url, Some (json_dumps data), header, timeout)]
  ∧ sent (MockTestClientBackend.delete json_dumps phrase valid test_client_call
            url data header auth timeout)
    = [("delete", url, Some (json_dumps data), header, timeout)].
Proof.
  intros sent. subst sent.
  unfold MockTestClientBackend.head, MockTestClientBackend.get,
    MockTestClientBackend.put, MockTestClientBackend.post,
    MockTestClientBackend.delete.
  rewrite !mock_verb_requests. done.
Qed.

(** X12: the body of a response is decoded exactly once when the request was
    answered with a status that is not a server error, including when the
    filter then raises, and never otherwise; this holds for [request_http]
    and for [mock_prepare_response]. *)
Theorem body_decoded_once_below_500
    (json_dumps : pyval → string) (phrase : Z → string) (valid : Z → bool)
    (request : aiohttp.request_args → result aiohttp.ClientResponse)
    (method url : string) (data headers : pyval) (auth : credentials)
    (timeout : ClientTimeout) (reply : test_client.Response) :
  decodes (calls (AioHttpClientBackend.request_http json_dumps phrase valid request
                    method url data headers auth timeout))
  = match request {| aiohttp.method := method; aiohttp.url := url;
                     aiohttp.data := json_dumps data; aiohttp.headers := headers;
                     aiohttp.auth := auth; aiohttp.timeout := timeout |} with
    | Return response =>
        if status_codes.is_server_error (aiohttp.status response) then O else 1%nat
    | Raise _ => O
    end
  ∧ decodes (calls (MockTestClientBackend.mock_prepare_response phrase valid reply))
    = if status_codes.is_server_error (test_client.status_code reply)
      then O else 1%nat.
Proof.
  split.
  - unfold calls, AioHttpClientBackend.request_http. io_unfold.
    destruct (request _) as [response | err]; cbv beta iota zeta.
    + destruct (status_codes.is_server_error _); [reflexivity |].
      destruct (status_codes.is_client_error _);
        (destruct (aiohttp.json response) as [body | err];
         [destruct (AioHttpClientBackend.filter_received_response _ _ _) as [[] | err];
          [destruct (ClientBackendResponse.new _ _ _) as [r | err] |] |];
         try destruct err; reflexivity).
    + destruct err; reflexivity.
  - unfold calls, MockTestClientBackend.mock_prepare_response. io_unfold.
    destruct (status_codes.is_server_error _); [reflexivity |].
    destruct (status_codes.is_client_error _);
      (destruct (test_client.json reply) as [body | err];
       [destruct (MockTestClientBackend.mock_filter_received_response _ _ _)
          as [[] | err];
        [destruct (ClientBackendResponse.new _ _ _) as [r | err] |] |];
       reflexivity).
Qed.

(** X13: with an integer under ["code"], on the five statuses that carry a
    business code, the exception keeps that integer as [trace_code] exactly
    when it is positive: zero and the negative codes are dropped. *)
Theorem filter_integer_code_kept_when_positive
    (phrase : Z → string) (status : Z) (B : gmap string pyval) (n : Z) :
  status ∈ [400; 401; 403; 404; 409] →
  B !! "code" = Some (PInt n) →
  let raised :=
    Raise (HTTPException_
             {| HTTPException.status_code := status;
                HTTPException.trace_code := if 0 <? n then Some (PInt n) else None;
                HTTPException.detail := Some (PStr (phrase status)) |}) in
  AioHttpClientBackend.filter_received_response phrase status (PDict B) = raised
  ∧ MockTestClientBackend.mock_filter_received_response phrase status (PDict B)
    = raised.
Proof.
  intros Hstatus Hcode raised. subst raised.
  change (MockTestClientBackend.mock_filter_received_response phrase status (PDict B))
    with (AioHttpClientBackend.filter_received_response phrase status (PDict B)).
  rewrite (filter_classified phrase status (PDict B) Hstatus).
  cbn [py_get mbind result_bind]. rewrite Hcode.
  change (default (PInt 0) (Some (PInt n))) with (PInt n).
  cbn [py_gt_0 mbind result_bind].
  split; reflexivity.
Qed.

Lemma filter_integer_code_kept_when_positive_witness :
  400 ∈ [400; 401; 403; 404; 409]
  ∧ ({[ "code" := PInt (-3) ]} : gmap string pyval) !! "code" = Some (PInt (-3))
  ∧ AioHttpClientBackend.filter_received_response reason_phrases 400
      (PDict {[ "code" := PInt (-3) ]})
    = Raise (HTTPException_
               {| HTTPException.status_code := 400;
                  HTTPException.trace_code := None;
                  HTTPException.detail := Some (PStr "Bad Request") |}).
Proof.
  assert (Hin : 400 ∈ [400; 401; 403; 404; 409]) by set_solver.
  assert (Hcode : ({[ "code" := PInt (-3) ]} : gmap string pyval) !! "code"
                  = Some (PInt (-3))) by reflexivity.
  split; [exact Hin |]. split; [exact Hcode |].
  exact (proj1 (filter_integer_code_kept_when_positive reason_phrases 400
                  {[ "code" := PInt (-3) ]} (-3) Hin Hcode)).
Defined.
